(** * httprequest2: a concurrent HTTP load generator

    Shallow embedding of [cli_runner.py] (one-shot command-line run) and
    [server.py] (start/stop/status control API), and the properties of the
    load-generation engine checked against it.

    Conventions of the embedding.
    - Python [int] is [Z]. A Python [float] (clock readings, latencies,
      token counts, rates) is the rational [Q] it stands for. The
      arithmetic of the token bucket, whose results are compared with
      [1.0] to decide whether a request goes out, is rounded the way
      binary64 rounds, by [fl] below; doubling, which is exact in binary,
      sums of latencies and the deadline are kept exact. Infinities and
      NaN are not modelled.
    - asyncio is cooperative: code between two [await]s runs atomically.
      Each coroutine is cut at its [await]s into atomic segments, a task
      carries a program counter saying at which [await] it is suspended, and
      a schedule (a list of task index and environment input) drives the
      system one segment at a time.
    - Everything the engine reads from outside is an input of the segment
      that reads it: one clock reading per [time.time()] call, the generated
      name, the random draw, and the result of [client.get]. *)

From Stdlib Require Import ZArith QArith Qminmax Qround Qpower.
From Stdlib Require Import Ascii String List Lia Lqa Bool.
From stdpp Require Import base list.
Import ListNotations.

Local Open Scope Q_scope.

(** ** Floats as rationals *)

Definition Qltb (a b : Q) : bool := negb (Qle_bool b a).

(** [floor (log2 (n / d))]: with [k] the difference of the bit lengths,
    the quotient lies strictly between [2^(k-1)] and [2^(k+1)]. *)
Definition ilog2 (n d : positive) : Z :=
  let k := (Z.log2 (Zpos n) - Z.log2 (Zpos d))%Z in
  if Qltb (Zpos n # d) (2 ^ k) then (k - 1)%Z else k.

(** The integer nearest to [x], the even one of the two at a tie. *)
Definition round_half_even (x : Q) : Z :=
  let f := Qfloor x in
  match Qcompare (x - inject_Z f) (1 # 2) with
  | Lt => f
  | Gt => (f + 1)%Z
  | Eq => if Z.even f then f else (f + 1)%Z
  end.

(** The binary64 value nearest to [n / d]: a significand of 53 bits, the
    exponent of the last bit not below -1074 (subnormals), ties to even.
    No overflow: the exponent is not bounded above. *)
Definition fl_pos (n d : positive) : Q :=
  let e := Z.max (ilog2 n d - 52) (-1074) in
  inject_Z (round_half_even ((Zpos n # d) / 2 ^ e)) * 2 ^ e.

(** The result of a float operation whose exact result is [x]. *)
Definition fl (x : Q) : Q :=
  match Qnum x with
  | Z0 => 0
  | Zpos n => fl_pos n (Qden x)
  | Zneg n => - fl_pos n (Qden x)
  end.

(** Converting an [int] to a [float], as [float + int] does, raises
    [OverflowError] when the nearest binary64 value would be [2^1024]. *)
Definition float_overflows (n : Z) : bool :=
  (2 ^ 1024 - 2 ^ 970 <=? Z.abs n)%Z.

(** ** The HTTP client collaborator (httpx) *)

Module Http.

Inductive Method := GET.

Inductive ParamValue :=
| PStr (s : string)
| PInt (n : Z).

(** [client.get(url, params=params, timeout=timeout)] *)
Record Request := mkRequest {
  method : Method;
  url : string;
  params : list (string * ParamValue);
  timeout : Q }.

(** A received response. [text] is [None] when decoding [resp.text]
    raises; [content_repr] is [repr(resp.content)]. *)
Record Response := mkResponse {
  status_code : Z;
  text : option string;
  content_repr : string }.

(** What [await client.get(...)] can raise. The first three are httpx
    transport errors, [OtherException] is any other subclass of
    [Exception]; [CancelledError] derives from [BaseException]. *)
Inductive exn :=
| ConnectError (msg : string)
| TimeoutException (msg : string)
| ProtocolError (msg : string)
| OtherException (msg : string)
| CancelledError.

(** [isinstance(e, Exception)], the test of [except Exception]. *)
Definition is_Exception (e : exn) : bool :=
  match e with
  | CancelledError => false
  | _ => true
  end.

(** [str(e)] *)
Definition str (e : exn) : string :=
  match e with
  | ConnectError m | TimeoutException m | ProtocolError m
  | OtherException m => m
  | CancelledError => ""
  end.

Definition is_transport (e : exn) : bool :=
  match e with
  | ConnectError _ | TimeoutException _ | ProtocolError _ => true
  | _ => false
  end.

Inductive result :=
| Returns (resp : Response)
| Raises (e : exn).

(** [200 <= resp.status_code < 300] *)
Definition is_2xx (code : Z) : bool := ((200 <=? code) && (code <? 300))%Z.

(** [body[:n]] *)
Definition take_chars (n : nat) (s : string) : string := substring 0 n s.

End Http.

(** [random.randint(a, b)]: an integer of [a..b], chosen by the entropy
    [x] the generator supplies. *)
Definition randint (a b : Z) (x : Z) : Z := (a + x mod (b - a + 1))%Z.

(** ** cli_runner.py *)

Module Cli.
Import Http.

(** The attributes of a [Runner] instance. *)
Record Runner := mkRunner {
  target : string;
  concurrency : Z;
  duration : Z;
  rps : Q;
  _tokens : Q;
  _last_fill : Q;
  total : Z;
  success : Z;
  failure : Z;
  total_time : Q;
  last_response : option (option Z * string) }.

(** [Runner.__init__], with the reading of [time.time()] at line 36. *)
Definition __init__ (target : string) (concurrency duration : Z) (t36 : Q)
  : Runner :=
  {| target := target; concurrency := concurrency; duration := duration;
     rps := 0; _tokens := 0; _last_fill := t36;
     total := 0; success := 0; failure := 0; total_time := 0;
     last_response := None |}.

Definition set_rps (x : Q) (r : Runner) : Runner :=
  {| target := target r; concurrency := concurrency r;
     duration := duration r; rps := x;
     _tokens := _tokens r; _last_fill := _last_fill r;
     total := total r; success := success r; failure := failure r;
     total_time := total_time r; last_response := last_response r |}.

Definition set_bucket (tokens last_fill : Q) (r : Runner) : Runner :=
  {| target := target r; concurrency := concurrency r;
     duration := duration r; rps := rps r;
     _tokens := tokens; _last_fill := last_fill;
     total := total r; success := success r; failure := failure r;
     total_time := total_time r; last_response := last_response r |}.

Definition set_stats (tot suc fai : Z) (tt : Q)
    (last : option (option Z * string)) (r : Runner) : Runner :=
  {| target := target r; concurrency := concurrency r;
     duration := duration r; rps := rps r;
     _tokens := _tokens r; _last_fill := _last_fill r;
     total := tot; success := suc; failure := fai;
     total_time := tt; last_response := last |}.

(** *** [Runner._one], segment by segment *)

(** Line 46: [if self.rps and self.rps > 0]. *)
Definition rate_limited (r : Runner) : bool :=
  negb (Qeq_bool (rps r) 0) && Qltb 0 (rps r).

(** Lines 49-50 and 67-68: [elapsed = now - self._last_fill] and
    [self._tokens += elapsed * self.rps], three float operations. *)
Definition accrued (tokens last_fill now rps : Q) : Q :=
  let elapsed := fl (now - last_fill) in
  fl (tokens + fl (elapsed * rps)).

(** Lines 48-54: the refill on entry, capped at two seconds' worth.
    [self.rps * 2] is exact: doubling a binary float changes its exponent
    only. *)
Definition refill_entry (now : Q) (r : Runner) : Runner :=
  let tokens := accrued (_tokens r) (_last_fill r) now (rps r) in
  let tokens := if Qltb (rps r * 2) tokens then rps r * 2 else tokens in
  set_bucket tokens now r.

(** Lines 66-69: the refill after the sleep inside the [while] loop. *)
Definition refill_wake (now : Q) (r : Runner) : Runner :=
  set_bucket (accrued (_tokens r) (_last_fill r) now (rps r)) now r.

(** Lines 60-65: the argument of [asyncio.sleep]. The literal [0.01] is
    the binary64 value nearest to one hundredth. *)
Definition wait (r : Runner) : Q :=
  let needed := fl (1 - _tokens r) in
  Qmax (fl (1 # 100)) (fl (needed / rps r)).

(** Line 71. *)
Definition consume (r : Runner) : Runner :=
  set_bucket (fl (_tokens r - 1)) (_last_fill r) r.

(** Lines 72-77: the request of one iteration. *)
Definition build_request (target name : string) (x : Z) : Request :=
  {| method := GET; url := target;
     params := [("q"%string, PStr name);
                ("loadMore"%string, PInt (randint 1 5 x))];
     timeout := 10 |}.

(** Lines 78-89: [client.get] returned [resp]; [elapsed] is the measured
    latency [time.time() - start]. *)
Definition record_response (elapsed : Q) (resp : Response) (r : Runner)
  : Runner :=
  let body := match text resp with
              | Some s => s
              | None => content_repr resp
              end in
  let ok := is_2xx (status_code resp) in
  set_stats (total r + 1)%Z
            (if ok then (success r + 1)%Z else success r)
            (if ok then failure r else (failure r + 1)%Z)
            (total_time r + elapsed)
            (Some (Some (status_code resp), take_chars 2000 body)) r.

(** Lines 90-93: the handler of [except Exception as e]. *)
Definition record_exception (e : exn) (r : Runner) : Runner :=
  set_stats (total r + 1)%Z (success r) (failure r + 1)%Z (total_time r)
            (Some (None, ("exception: " ++ str e)%string)) r.

(** Where a worker task is suspended. *)
Inductive pc :=
| Created                               (* task made at line 106, not yet run *)
| Sleeping (d : Q)                      (* line 65, [asyncio.sleep(d)] *)
| InFlight (start : Q) (req : Request)  (* line 77, [client.get] *)
| Yielded                               (* line 98, [asyncio.sleep(0)] *)
| Returned                              (* the [while] of line 96 ended *)
| Failed (e : exn).                     (* an exception left the task *)

(** What an observer of the run sees a worker do. *)
Inductive Event :=
| EvGate (tokens_left : Q)   (* line 71: a token was taken *)
| EvSleep (d : Q)            (* line 65 *)
| EvSend (req : Request)     (* line 77: a request goes out *)
| EvRecord (total : Z).      (* lines 79 and 91: a request was counted *)

(** What the random collaborators return in one iteration: [fake.name()]
    and the entropy of [random.randint]. *)
Record Draw := mkDraw { name : string; entropy : Z }.

(** Lines 58-77, entered after a refill: the loop test, then either the
    sleep or the token and the request. [t75] is the clock at line 75. *)
Definition gate (d : Draw) (t75 : Q) (r : Runner)
  : Runner * pc * list Event :=
  if Qltb (_tokens r) 1 then (r, Sleeping (wait r), [EvSleep (wait r)])
  else
    let r' := consume r in
    let req := build_request (target r') (name d) (entropy d) in
    (r', InFlight t75 req, [EvGate (_tokens r'); EvSend req]).

(** [_one] from its first line to its first [await], or to its end when
    the test of line 46 fails: lines 72-93 are inside that [if]. *)
Definition _one_enter (d : Draw) (t48 t75 : Q) (r : Runner)
  : Runner * pc * list Event :=
  if rate_limited r then gate d t75 (refill_entry t48 r)
  else (r, Yielded, []).

(** [_one] resumed after the sleep of line 65. *)
Definition _one_wake (d : Draw) (t66 t75 : Q) (r : Runner)
  : Runner * pc * list Event :=
  gate d t75 (refill_wake t66 r).

(** [_one] resumed when [client.get] finishes; [t78] is the clock at
    line 78. *)
Definition _one_reply (res : result) (start t78 : Q) (r : Runner)
  : Runner * pc * list Event :=
  match res with
  | Returns resp =>
      let r' := record_response (t78 - start) resp r in
      (r', Yielded, [EvRecord (total r')])
  | Raises e =>
      if is_Exception e then
        let r' := record_exception e r in
        (r', Yielded, [EvRecord (total r')])
      else (r, Failed e, [])
  end.

(** What the event loop hands a task when it resumes it. *)
Inductive Input :=
| Resume (t96 t48 t75 : Q) (d : Draw)  (* a task at the head of [worker] *)
| Wake (t66 t75 : Q) (d : Draw)        (* the sleep of line 65 is over *)
| Reply (res : result) (t78 : Q)       (* [client.get] finished *)
| Cancel.                              (* [CancelledError] at the await *)

(** One atomic segment of [Runner.worker]. An input that does not fit
    the task's program counter leaves everything as it is. *)
Definition worker_step (end_time : Q) (i : Input) (r : Runner) (p : pc)
  : Runner * pc * list Event :=
  match p, i with
  | (Created | Yielded), Resume t96 t48 t75 d =>
      if Qltb t96 end_time then _one_enter d t48 t75 r
      else (r, Returned, [])
  | Sleeping _, Wake t66 t75 d => _one_wake d t66 t75 r
  | InFlight start _, Reply res t78 => _one_reply res start t78 r
  | (Created | Sleeping _ | Yielded), Cancel =>
      (r, Failed CancelledError, [])
  | InFlight start _, Cancel => _one_reply (Raises CancelledError) start 0 r
  | _, _ => (r, p, [])
  end.

(** A run in progress: the shared [Runner], the deadline of line 101 and
    the tasks of line 106. *)
Record Sys := mkSys {
  runner : Runner;
  end_time : Q;
  tasks : list pc }.

(** [Runner.run], lines 101-106; [t101] and [t104] are the two clock
    readings. [range(self.concurrency)] is empty for a count below 1. *)
Definition run (t101 t104 : Q) (r : Runner) : Sys :=
  {| runner := set_bucket 0 t104 r;
     end_time := t101 + inject_Z (duration r);
     tasks := replicate (Z.to_nat (concurrency r)) Created |}.

(** The event loop resumes task [w] with input [i]. *)
Definition sched_step (s : Sys) (wi : nat * Input) : Sys * list Event :=
  match tasks s !! wi.1 with
  | Some p =>
      let '(r', p', evs) := worker_step (end_time s) wi.2 (runner s) p in
      ({| runner := r'; end_time := end_time s;
          tasks := <[wi.1 := p']> (tasks s) |}, evs)
  | None => (s, [])
  end.

Fixpoint exec (sched : list (nat * Input)) (s : Sys) : Sys * list Event :=
  match sched with
  | [] => (s, [])
  | wi :: rest =>
      let '(s1, e1) := sched_step s wi in
      let '(s2, e2) := exec rest s1 in
      (s2, e1 ++ e2)
  end.

(** The figures printed by the [reporter] task (lines 112-119) and by
    [Runner.report] (lines 145-163). *)
Record Report := mkReport {
  rep_total : Z;
  rep_success : Z;
  rep_failure : Z;
  rep_avg : option Q;
  rep_last : option (option Z * string) }.

Definition report (r : Runner) : Report :=
  {| rep_total := total r; rep_success := success r;
     rep_failure := failure r;
     rep_avg := if (0 <? total r)%Z
                then Some (total_time r / inject_Z (total r)) else None;
     rep_last := last_response r |}.

(** The parsed command line of [parse_args]. *)
Record Args := mkArgs {
  arg_target : string;
  arg_concurrency : Z;
  arg_duration : Z;
  arg_rps : Q }.

(** An exception that leaves [main], which catches [KeyboardInterrupt]
    only. *)
Inductive Uncaught :=
| Overflow     (* OverflowError: int too large to convert to float *)
| Cancelled.   (* asyncio.CancelledError *)

(** How [main] ends: [r.report] prints the figures (line 176), or an
    exception escapes and nothing is reported. *)
Inductive Outcome :=
| Printed (rep : Report)
| Escaped (e : Uncaught).

(** [main], lines 167-176: build the runner, set its rate, run the
    schedule the event loop produces, report.
    - Line 101 adds the [int] duration to a float: when it does not fit a
      float, [run] raises before it has reset the bucket or made a task
      (the deadline of the system returned has no meaning then).
    - With a concurrency below 1 there is no task to gather: line 130
      does not suspend, so [reporter] has not started when line 137
      cancels it, [await rep] at line 139 raises [CancelledError], which
      [except Exception] does not catch, and it leaves [run] and [main].
    - Otherwise [reporter] has started, returns on its cancellation
      (line 125), and the report is printed. *)
Definition main (a : Args) (t36 t101 t104 : Q) (sched : list (nat * Input))
  : Sys * list Event * Outcome :=
  let r := set_rps (arg_rps a)
             (__init__ (arg_target a) (arg_concurrency a) (arg_duration a)
                       t36) in
  if float_overflows (arg_duration a) then
    ({| runner := r; end_time := t101; tasks := [] |}, [], Escaped Overflow)
  else
    let '(s, evs) := exec sched (run t101 t104 r) in
    (s, evs,
     if (arg_concurrency a <? 1)%Z then Escaped Cancelled
     else Printed (report (runner s))).

(** What [main] prints is the report [rep]; it prints nothing only when
    the concurrency is below 1 or the duration does not fit a float. *)
Definition reports (a : Args) (o : Outcome) (rep : Report) : Prop :=
  match o with
  | Printed shown => shown = rep
  | Escaped _ =>
      (arg_concurrency a < 1)%Z \/ float_overflows (arg_duration a) = true
  end.

(** The clock readings an input carries, in the order they are taken. *)
Definition readings (i : Input) : list Q :=
  match i with
  | Resume t96 t48 t75 _ => [t96; t48; t75]
  | Wake t66 t75 _ => [t66; t75]
  | Reply _ t78 => [t78]
  | Cancel => []
  end.

(** The clock never runs backwards: every reading of the list is at
    least [t] and at least the one before it. *)
Fixpoint monotone_from (t : Q) (l : list Q) : bool :=
  match l with
  | [] => true
  | x :: l' => Qle_bool t x && monotone_from x l'
  end.

(** The latest reading of the clock after the readings [l]. *)
Definition last_reading (t : Q) (l : list Q) : Q :=
  fold_left (fun _ x => x) l t.

Definition clock_of (sched : list (nat * Input)) : list Q :=
  flat_map (fun wi => readings wi.2) sched.

(** Counter conservation on the runner's statistics. *)
Definition conserved (r : Runner) : Prop :=
  total r = (success r + failure r)%Z.

(** A trace is gated when every request in it comes right after a token
    was taken, and no token count fell below zero. *)
Fixpoint gated_from (token_taken : bool) (evs : list Event) : bool :=
  match evs with
  | [] => true
  | EvSend _ :: rest => token_taken && gated_from false rest
  | EvGate k :: rest => Qle_bool 0 k && gated_from true rest
  | _ :: rest => gated_from false rest
  end.

Definition gated (evs : list Event) : bool := gated_from false evs.

(** The requests of a trace. *)
Definition sent (evs : list Event) : list Request :=
  flat_map (fun e => match e with EvSend req => [req] | _ => [] end) evs.

(** The request [_one] builds for the target [tgt]: a GET of [tgt] with
    a name under ["q"], an integer of 1..5 under ["loadMore"], and a
    timeout of ten seconds. *)
Definition request_ok (tgt : string) (req : Request) : Prop :=
  method req = GET /\ url req = tgt /\ timeout req = 10 /\
  exists (name : string) (n : Z),
    params req = [("q"%string, PStr name); ("loadMore"%string, PInt n)] /\
    (1 <= n <= 5)%Z.

(** The state of the token bucket is sound at clock reading [t]: the
    rate is positive, no token is owed, and the last refill is not in
    the future. *)
Definition bucket_ok (t : Q) (r : Runner) : Prop :=
  0 < rps r /\ 0 <= _tokens r /\ _last_fill r <= t.

(** A task that is neither in the wait loop nor awaiting a response. *)
Definition outside_one (p : pc) : bool :=
  match p with
  | Sleeping _ | InFlight _ _ => false
  | _ => true
  end.

(** *** The reporter task and the printed report *)

(** [s.replace('\n', ' ')] *)
Fixpoint replace_newlines (s : string) : string :=
  match s with
  | EmptyString => EmptyString
  | String c s' =>
      String (if Ascii.eqb c "010"%char then " "%char else c) (replace_newlines s')
  end.

(** ['\n' in s] *)
Fixpoint has_newline (s : string) : bool :=
  match s with
  | EmptyString => false
  | String c s' => Ascii.eqb c "010"%char || has_newline s'
  end.

(** [int(x)] of a float: truncation towards zero. *)
Definition int (x : Q) : Z := Z.quot (Qnum x) (Zpos (Qden x)).

(** The values [reporter] formats into its line, lines 112-119; [t118]
    is the clock at line 118. [line_last] is [None] where ['-'] is
    printed. *)
Record StatusLine := mkLine {
  line_elapsed : Z;
  line_total : Z;
  line_success : Z;
  line_failure : Z;
  line_avg : Q;
  line_last : option (option Z);
  line_body : string }.

Definition reporter_line (t118 : Q) (s : Sys) : StatusLine :=
  let r := runner s in
  {| line_elapsed := int (t118 - (end_time s - inject_Z (duration r)));
     line_total := total r;
     line_success := success r;
     line_failure := failure r;
     line_avg := if (0 <? total r)%Z
                 then total_time r / inject_Z (total r) else 0;
     line_last := match last_response r with
                  | Some (code, _) => Some code
                  | None => None
                  end;
     line_body := match last_response r with
                  | Some (_, body) =>
                      if (body =? "")%string then ""%string
                      else take_chars 120 (replace_newlines body)
                  | None => ""%string
                  end |}.

(** Lines 156-161 of [Runner.report]: the status and the snippet printed
    for the last response, [None] where ['last response: -'] is
    printed. *)
Definition body_snip (r : Runner) : option (option Z * string) :=
  match last_response r with
  | Some (code, body) => Some (code, take_chars 1000 (replace_newlines body))
  | None => None
  end.

(** *** Bookkeeping of a run *)

(** The number of tasks awaiting a response. *)
Definition in_flight (p : pc) : Z :=
  match p with
  | InFlight _ _ => 1
  | _ => 0
  end.

Definition in_flight_count (l : list pc) : Z :=
  fold_right (fun p n => (in_flight p + n)%Z) 0%Z l.

(** An input that cancels nothing: not [Cancel], and not a
    [BaseException] out of [client.get]. *)
Definition uncancelled (i : Input) : bool :=
  match i with
  | Cancel => false
  | Reply (Raises e) _ => is_Exception e
  | _ => true
  end.

End Cli.

(** ** server.py *)

Module Server.
Import Http.

(** The value stored under ["last_response"]: the dict with keys
    ["status_code"] and ["body"]. *)
Record LastResponse := mkLast {
  last_status_code : option Z;
  last_body : string }.

(** The module-level dict [_state]; its eight keys never change. *)
Record State := mkState {
  running : bool;
  total_requests : Z;
  success : Z;
  failure : Z;
  total_time : Q;
  start_time : option Q;
  end_time : option Q;
  last_response : option LastResponse }.

(** Lines 17-26. *)
Definition _state0 : State :=
  {| running := false; total_requests := 0; success := 0; failure := 0;
     total_time := 0; start_time := None; end_time := None;
     last_response := None |}.

Definition set_running (b : bool) (end_t : option Q) (s : State) : State :=
  {| running := b; total_requests := total_requests s;
     success := success s; failure := failure s;
     total_time := total_time s; start_time := start_time s;
     end_time := end_t; last_response := last_response s |}.

Definition set_stats (tot suc fai : Z) (tt : Q)
    (last : option LastResponse) (s : State) : State :=
  {| running := running s; total_requests := tot;
     success := suc; failure := fai;
     total_time := tt; start_time := start_time s;
     end_time := end_time s; last_response := last |}.

(** Lines 95-98 of [_worker]: the request of one iteration. *)
Definition build_request (target name : string) : Request :=
  {| method := GET; url := target;
     params := [("q"%string, PStr name)];
     timeout := 10 |}.

(** Lines 99-112: [client.get] returned [resp]. *)
Definition record_response (elapsed : Q) (resp : Response) (s : State)
  : State :=
  let text := match text resp with
              | Some t => t
              | None => take_chars 1000 (content_repr resp)
              end in
  let ok := is_2xx (status_code resp) in
  set_stats (total_requests s + 1)%Z
            (if ok then (success s + 1)%Z else success s)
            (if ok then failure s else (failure s + 1)%Z)
            (total_time s + elapsed)
            (Some {| last_status_code := Some (status_code resp);
                     last_body := take_chars 2000 text |}) s.

(** Lines 113-116: the handler of [except Exception]. *)
Definition record_exception (s : State) : State :=
  set_stats (total_requests s + 1)%Z (success s) (failure s + 1)%Z
            (total_time s)
            (Some {| last_status_code := None;
                     last_body := "exception" |}) s.

(** Where a task of the event loop stands. The first two are
    [_run_load], the next three [loop_worker] with the variables it
    closes over. *)
Inductive pc :=
| CtlCreated (concurrency duration : Z) (target : string) (* line 65 *)
| CtlGather (workers : list nat)                          (* line 138 *)
| WkCreated (target : string) (stop_at : Q)               (* line 133 *)
| WkInFlight (target : string) (stop_at start : Q) (req : Request)
                                                          (* line 98 *)
| WkYielded (target : string) (stop_at : Q)               (* line 130 *)
| Done
| Failed (e : exn).

(** An [asyncio.Task]: its coroutine and whether [cancel()] was called
    on it. *)
Record Task := mkTask {
  at_pc : pc;
  cancel_requested : bool }.

(** [t.done()] *)
Definition done (t : Task) : bool :=
  match at_pc t with
  | Done | Failed _ => true
  | _ => false
  end.

(** [if not t.done(): t.cancel()] *)
Definition cancel (t : Task) : Task :=
  if done t then t else {| at_pc := at_pc t; cancel_requested := true |}.

(** The process: [_state], the global list [_tasks] (task objects are
    shared with the event loop, so the list holds their indices), and the
    tasks of the event loop. *)
Record Sys := mkSys {
  _state : State;
  _tasks : list nat;
  loop : list Task }.

Definition sys0 : Sys := {| _state := _state0; _tasks := []; loop := [] |}.

(** [for t in ids: if not t.done(): t.cancel()] *)
Definition cancel_all (ids : list nat) (l : list Task) : list Task :=
  fold_left (fun l id => match l !! id with
                         | Some t => <[id := cancel t]> l
                         | None => l
                         end) ids l.

(** The body of a JSON answer of the control API. *)
Inductive Json :=
| JStatus (value : string)     (* {"status": value} *)
| JError (value : string).     (* {"error": value} *)

Record ApiResponse := mkApi {
  http_status : Z;
  json : Json }.

(** The dict returned by [status()], lines 81-89. *)
Record Snapshot := mkSnapshot {
  snap_running : bool;
  snap_total_requests : Z;
  snap_success : Z;
  snap_failure : Z;
  snap_average_response_time : option Q;
  snap_elapsed : option Q;
  snap_last_response : option LastResponse }.

(** [start_test], lines 39-68; [t50] is the clock at line 50. *)
Definition start_test (concurrency duration : Z) (target : string)
    (t50 : Q) (s : Sys) : Sys * ApiResponse :=
  if running (_state s) then
    (s, {| http_status := 400; json := JError "test already running" |})
  else
    let st := {| running := true; total_requests := 0; success := 0;
                 failure := 0; total_time := 0; start_time := Some t50;
                 end_time := None; last_response := None |} in
    let l := cancel_all (_tasks s) (loop s) in
    let controller := length l in
    ({| _state := st;
        _tasks := [controller];
        loop := l ++ [{| at_pc := CtlCreated concurrency duration target;
                         cancel_requested := false |}] |},
     {| http_status := 200; json := JStatus "started" |}).

(** [stop_test], lines 155-166; [t165] is the clock at line 165. *)
Definition stop_test (t165 : Q) (s : Sys) : Sys * ApiResponse :=
  if negb (running (_state s)) then
    (s, {| http_status := 400; json := JStatus "not running" |})
  else
    ({| _state := set_running false (Some t165) (_state s);
        _tasks := [];
        loop := cancel_all (_tasks s) (loop s) |},
     {| http_status := 200; json := JStatus "stopped" |}).

(** The truth value of [_state["start_time"]]: [None] and [0.0] are
    false. *)
Definition truthy (t : option Q) : bool :=
  match t with
  | Some x => negb (Qeq_bool x 0)
  | None => false
  end.

(** [status], lines 72-89; [t76] is the clock at line 76. *)
Definition status (t76 : Q) (s : Sys) : Snapshot :=
  let st := _state s in
  {| snap_running := running st;
     snap_total_requests := total_requests st;
     snap_success := success st;
     snap_failure := failure st;
     snap_average_response_time :=
       if (0 <? total_requests st)%Z
       then Some (total_time st / inject_Z (total_requests st)) else None;
     snap_elapsed :=
       match start_time st with
       | Some t0 => if truthy (start_time st) then Some (t76 - t0) else None
       | None => None
       end;
     snap_last_response := last_response st |}.

(** What the event loop hands a task when it resumes it. *)
Inductive TaskInput :=
| Go (t1 t2 : Q) (name : string)   (* two clock readings, [fake.name()] *)
| Reply (res : result) (t99 : Q).  (* [client.get] finished *)

Inductive Event :=
| EvSend (req : Request)           (* line 98: a request goes out *)
| EvRecord (total : Z)             (* lines 100 and 114 *)
| EvApi (resp : ApiResponse)       (* the answer of /start or /stop *)
| EvSnapshot (snap : Snapshot).    (* the answer of /status *)

Definition set_pc (id : nat) (p : pc) (l : list Task) : list Task :=
  match l !! id with
  | Some t => <[id := {| at_pc := p;
                         cancel_requested := cancel_requested t |}]> l
  | None => l
  end.

(** Lines 150-151, the last two statements of [_run_load]. *)
Definition finish (now : Q) (s : State) : State :=
  set_running false (Some now) s.

Definition failed (l : list Task) (id : nat) : bool :=
  match l !! id with
  | Some {| at_pc := Failed _ |} => true
  | _ => false
  end.

Definition finished (l : list Task) (id : nat) : bool :=
  match l !! id with
  | Some t => done t
  | None => true
  end.

(** [_run_load] from its start to the [await] of [asyncio.gather] at line 138;
    [t120] and [t151] are the clock at lines 120 and 151. Entering and
    leaving [async with httpx.AsyncClient()] does not suspend.
    [asyncio.Semaphore] refuses a negative value with [ValueError], and
    [gather] of no task is complete at once. *)
Definition _run_load_start (id : nat) (concurrency duration : Z)
    (target : string) (t120 t151 : Q) (s : Sys) : Sys :=
  let end_time := t120 + inject_Z duration in
  if (concurrency <? 0)%Z then
    {| _state := _state s; _tasks := _tasks s;
       loop := set_pc id
                 (Failed (OtherException
                            "Semaphore initial value must be >= 0"))
                 (loop s) |}
  else
    let n := Z.to_nat concurrency in
    let workers := seq (length (loop s)) n in
    let l := loop s ++ replicate n {| at_pc := WkCreated target end_time;
                                      cancel_requested := false |} in
    if (n =? 0)%nat then
      {| _state := finish t151 (_state s);
         _tasks := _tasks s ++ workers;
         loop := set_pc id Done l |}
    else
      {| _state := _state s;
         _tasks := _tasks s ++ workers;
         loop := set_pc id (CtlGather workers) l |}.

(** [_run_load] resumed at line 138: by a [CancelledError] (its own
    cancellation, or a worker's that [gather] passes on), handled at
    lines 139-148, or by the completion of every worker. In both cases
    lines 150-151 follow. While neither holds it stays suspended. *)
Definition _run_load_gather (id : nat) (cancelled : bool)
    (workers : list nat) (t151 : Q) (s : Sys) : Sys :=
  if cancelled || existsb (failed (loop s)) workers then
    {| _state := finish t151 (_state s); _tasks := _tasks s;
       loop := set_pc id Done (cancel_all workers (loop s)) |}
  else if forallb (finished (loop s)) workers then
    {| _state := finish t151 (_state s); _tasks := _tasks s;
       loop := set_pc id Done (loop s) |}
  else s.

(** [loop_worker] at the test of line 126, then [_worker] up to its
    [await] at line 98; [t126] and [t97] are the two clock readings. *)
Definition loop_worker_head (id : nat) (target : string) (stop_at : Q)
    (t126 t97 : Q) (name : string) (s : Sys) : Sys * list Event :=
  if Qltb t126 stop_at && running (_state s) then
    let req := build_request target name in
    ({| _state := _state s; _tasks := _tasks s;
        loop := set_pc id (WkInFlight target stop_at t97 req) (loop s) |},
     [EvSend req])
  else
    ({| _state := _state s; _tasks := _tasks s;
        loop := set_pc id Done (loop s) |}, []).

(** [_worker] resumed when [client.get] finishes, lines 99-116, then the
    [asyncio.sleep(0)] of line 130. *)
Definition _worker_reply (id : nat) (target : string) (stop_at start : Q)
    (res : result) (t99 : Q) (s : Sys) : Sys * list Event :=
  match res with
  | Returns resp =>
      let st := record_response (t99 - start) resp (_state s) in
      ({| _state := st; _tasks := _tasks s;
          loop := set_pc id (WkYielded target stop_at) (loop s) |},
       [EvRecord (total_requests st)])
  | Raises e =>
      if is_Exception e then
        let st := record_exception (_state s) in
        ({| _state := st; _tasks := _tasks s;
            loop := set_pc id (WkYielded target stop_at) (loop s) |},
         [EvRecord (total_requests st)])
      else
        ({| _state := _state s; _tasks := _tasks s;
            loop := set_pc id (Failed e) (loop s) |}, [])
  end.

(** The event loop resumes task [id]. A task whose [cancel()] was called
    gets [CancelledError] at its [await]; only [_run_load] handles it.
    An input that does not fit the task leaves everything as it is. *)
Definition task_step (id : nat) (i : TaskInput) (s : Sys)
  : Sys * list Event :=
  match loop s !! id with
  | None => (s, [])
  | Some t =>
      match at_pc t, i with
      | CtlCreated c d tgt, Go t120 t151 _ =>
          if cancel_requested t then
            ({| _state := _state s; _tasks := _tasks s;
                loop := set_pc id (Failed CancelledError) (loop s) |}, [])
          else (_run_load_start id c d tgt t120 t151 s, [])
      | CtlGather ws, Go t151 _ _ =>
          (_run_load_gather id (cancel_requested t) ws t151 s, [])
      | (WkCreated tgt stop_at | WkYielded tgt stop_at), Go t126 t97 name =>
          if cancel_requested t then
            ({| _state := _state s; _tasks := _tasks s;
                loop := set_pc id (Failed CancelledError) (loop s) |}, [])
          else loop_worker_head id tgt stop_at t126 t97 name s
      | WkInFlight tgt stop_at start _, Reply res t99 =>
          if cancel_requested t then
            _worker_reply id tgt stop_at start (Raises CancelledError) t99 s
          else _worker_reply id tgt stop_at start res t99 s
      | _, _ => (s, [])
      end
  end.

(** What happens to the process: a call of the control API, or the
    event loop resuming a task. *)
Inductive Input :=
| PostStart (concurrency duration : Z) (target : string) (t50 : Q)
| PostStop (t165 : Q)
| GetStatus (t76 : Q)
| RunTask (id : nat) (i : TaskInput).

Definition step (s : Sys) (i : Input) : Sys * list Event :=
  match i with
  | PostStart c d tgt t50 =>
      let '(s', resp) := start_test c d tgt t50 s in (s', [EvApi resp])
  | PostStop t165 =>
      let '(s', resp) := stop_test t165 s in (s', [EvApi resp])
  | GetStatus t76 => (s, [EvSnapshot (status t76 s)])
  | RunTask id i => task_step id i s
  end.

Fixpoint exec (sched : list Input) (s : Sys) : Sys * list Event :=
  match sched with
  | [] => (s, [])
  | i :: rest =>
      let '(s1, e1) := step s i in
      let '(s2, e2) := exec rest s1 in
      (s2, e1 ++ e2)
  end.

(** Counter conservation on [_state] and on a status answer. *)
Definition conserved (st : State) : Prop :=
  total_requests st = (success st + failure st)%Z.

Definition snapshot_conserved (snap : Snapshot) : Prop :=
  snap_total_requests snap = (snap_success snap + snap_failure snap)%Z.

(** The requests and the status answers of a trace. *)
Definition sent (evs : list Event) : list Request :=
  flat_map (fun e => match e with EvSend req => [req] | _ => [] end) evs.

Definition snapshots (evs : list Event) : list Snapshot :=
  flat_map (fun e => match e with EvSnapshot sn => [sn] | _ => [] end) evs.

(** The targets handed to /start by a schedule. *)
Definition targets (sched : list Input) : list string :=
  flat_map (fun i => match i with
                     | PostStart _ _ tgt _ => [tgt]
                     | _ => []
                     end) sched.

(** The target a task was created for is one of [tgts]. *)
Definition pc_target_in (tgts : list string) (p : pc) : Prop :=
  match p with
  | CtlCreated _ _ tgt | WkCreated tgt _ | WkInFlight tgt _ _ _
  | WkYielded tgt _ => In tgt tgts
  | _ => True
  end.

(** The target of the run in progress, or of the last one: that of the
    most recent /start that was accepted. /start is accepted when no run
    is in progress (line 42), and only then creates [_run_load] for its
    target (line 65). *)
Definition accepted_target (s : Sys) (i : Input) (cur : option string)
  : option string :=
  match i with
  | PostStart _ _ tgt _ => if running (_state s) then cur else Some tgt
  | _ => cur
  end.

Fixpoint current_target (sched : list Input) (s : Sys)
    (cur : option string) : option string :=
  match sched with
  | [] => cur
  | i :: rest => current_target rest (step s i).1 (accepted_target s i cur)
  end.

(** The request [_worker] builds, sent to [cur]. *)
Definition request_to (cur : option string) (req : Request) : Prop :=
  method req = GET /\ Some (url req) = cur /\ timeout req = 10 /\
  exists name : string, params req = [("q"%string, PStr name)].

(** *** Bookkeeping of the tasks *)

(** A task that will do nothing more: it is done, or its [cancel()] was
    called. *)
Definition stopped (t : Task) : Prop :=
  done t = true \/ cancel_requested t = true.

(** Every task of the event loop that can still act is listed in
    [_tasks], and [_tasks] lists tasks of the event loop only. *)
Definition tracked (s : Sys) : Prop :=
  (forall id t, loop s !! id = Some t -> stopped t \/ In id (_tasks s)) /\
  Forall (fun id => (id < length (loop s))%nat) (_tasks s).

(** A task that can still act was created for the target [cur]. *)
Definition aimed (cur : option string) (t : Task) : Prop :=
  stopped t \/ pc_target_in (option_list cur) (at_pc t).

(** No run is in progress and no task can act. *)
Definition halted (s : Sys) : Prop :=
  running (_state s) = false /\
  forall id t, loop s !! id = Some t -> stopped t.

(** The requests counted by a trace. *)
Definition recorded (evs : list Event) : list Z :=
  flat_map (fun e => match e with EvRecord n => [n] | _ => [] end) evs.

(** The figures of [_state] that workers write. *)
Definition stats (st : State)
  : Z * Z * Z * Q * option LastResponse :=
  (total_requests st, success st, failure st, total_time st,
   last_response st).

End Server.

(** * Properties *)

(** ** Comparisons on rationals *)

Lemma Qltb_true (a b : Q) : Qltb a b = true <-> a < b.
Proof.
  unfold Qltb. rewrite negb_true_iff, <- not_true_iff_false, Qle_bool_iff.
  split; [apply Qnot_le_lt | apply Qlt_not_le].
Qed.

Lemma Qltb_false (a b : Q) : Qltb a b = false <-> b <= a.
Proof. unfold Qltb. rewrite negb_false_iff. apply Qle_bool_iff. Qed.

(** ** Rounding keeps the sign *)

Lemma round_half_even_nonneg (x : Q) : 0 <= x -> (0 <= round_half_even x)%Z.
Proof.
  intros Hx. unfold round_half_even.
  assert (0 <= Qfloor x)%Z as Hf.
  { change 0%Z with (Qfloor 0). by apply Qfloor_resp_le. }
  destruct (Qcompare _ _); [destruct (Z.even _)| |]; lia.
Qed.

Lemma fl_nonneg (x : Q) : 0 <= x -> 0 <= fl x.
Proof.
  intros Hx. unfold fl. destruct x as [[|n|n] d]; cbn [Qnum Qden].
  - apply Qle_refl.
  - unfold fl_pos. set (e := Z.max _ _).
    assert (0 < 2 ^ e) as Hp by (apply Qpower_0_lt; reflexivity).
    apply Qmult_le_0_compat; [|lra].
    change 0 with (inject_Z 0). rewrite <- Zle_Qle.
    apply round_half_even_nonneg.
    apply Qle_shift_div_l; [done|]. rewrite Qmult_0_l. done.
  - exfalso. revert Hx. unfold Qle. cbn. lia.
Qed.

Lemma accrued_nonneg (tokens last_fill now rps : Q) :
  0 <= tokens -> last_fill <= now -> 0 <= rps ->
  0 <= Cli.accrued tokens last_fill now rps.
Proof.
  intros Hk Hf Hr. unfold Cli.accrued.
  assert (0 <= fl (now - last_fill)) as He by (apply fl_nonneg; lra).
  assert (0 <= fl (fl (now - last_fill) * rps)) as Hp
    by (apply fl_nonneg; by apply Qmult_le_0_compat).
  apply fl_nonneg. lra.
Qed.

Lemma monotone_from_app (t : Q) (a b : list Q) :
  Cli.monotone_from t (a ++ b) =
  Cli.monotone_from t a && Cli.monotone_from (Cli.last_reading t a) b.
Proof.
  revert t. induction a as [|x a IH]; intros t; [reflexivity|].
  cbn [app Cli.monotone_from]. rewrite IH, <- andb_assoc. reflexivity.
Qed.

Lemma monotone_from_last (t : Q) (l : list Q) :
  Cli.monotone_from t l = true -> t <= Cli.last_reading t l.
Proof.
  revert t. induction l as [|x l IH]; intros t H; [apply Qle_refl|].
  cbn [Cli.monotone_from] in H. apply andb_true_iff in H as [Hx Hl].
  apply Qle_bool_iff in Hx. apply IH in Hl.
  eapply Qle_trans; eassumption.
Qed.

(** ** Strings *)

Lemma take_chars_length (n : nat) (s : string) :
  (String.length (Http.take_chars n s) <= n)%nat.
Proof.
  unfold Http.take_chars. revert s.
  induction n as [|n IH]; intros [|c s]; cbn; try lia.
  specialize (IH s). lia.
Qed.

Lemma take_chars_length_min (n : nat) (s : string) :
  String.length (Http.take_chars n s) = Nat.min n (String.length s).
Proof.
  unfold Http.take_chars. revert s.
  induction n as [|n IH]; intros [|c s]; cbn; try done.
  by rewrite IH.
Qed.

Lemma take_chars_prefix (n : nat) (s : string) :
  String.prefix (Http.take_chars n s) s = true.
Proof.
  unfold Http.take_chars. revert s.
  induction n as [|n IH]; intros [|c s]; cbn; try done.
  destruct (ascii_dec c c); [apply IH | done].
Qed.

(** ** The command-line runner *)

Section CliRun.
Import Http Cli.

Lemma exec_app (a b : list (nat * Input)) (s : Sys) :
  exec (a ++ b) s =
  let '(s1, e1) := exec a s in
  let '(s2, e2) := exec b s1 in (s2, e1 ++ e2).
Proof.
  revert s. induction a as [|wi a IH]; intros s; cbn [app exec].
  - destruct (exec b s); reflexivity.
  - destruct (sched_step s wi) as [s1 e1]. rewrite IH.
    destruct (exec a s1) as [s2 e2], (exec b s2) as [s3 e3].
    by rewrite app_assoc.
Qed.

(** An invariant of every segment is an invariant of every schedule, and
    a property of traces that every segment's events have and that
    concatenation keeps holds of the whole trace. *)
Lemma exec_invariant (P : Sys -> Prop) (E : list Event -> Prop) :
  E [] -> (forall a b, E a -> E b -> E (a ++ b)) ->
  (forall s wi, P s -> P (sched_step s wi).1 /\ E (sched_step s wi).2) ->
  forall sched s, P s -> P (exec sched s).1 /\ E (exec sched s).2.
Proof.
  intros Hnil Happ Hstep sched.
  induction sched as [|wi sched IH]; intros s HP; cbn [exec].
  - by split.
  - destruct (Hstep s wi HP) as [HP1 HE1].
    destruct (sched_step s wi) as [s1 e1]; cbn [fst snd] in *.
    destruct (IH s1 HP1) as [HP2 HE2].
    destruct (exec sched s1) as [s2 e2]; cbn [fst snd] in *.
    split; [done | by apply Happ].
Qed.

(** A segment acts on the shared runner and on the task it resumes
    only. *)
Lemma sched_step_unfold (s : Sys) (w : nat) (i : Input) (p : pc) :
  tasks s !! w = Some p ->
  sched_step s (w, i) =
  let '(r', p', evs) := worker_step (end_time s) i (runner s) p in
  ({| runner := r'; end_time := end_time s;
      tasks := <[w := p']> (tasks s) |}, evs).
Proof. intros H. unfold sched_step. cbn [fst snd]. by rewrite H. Qed.

Lemma sched_step_skip (s : Sys) (w : nat) (i : Input) :
  tasks s !! w = None -> sched_step s (w, i) = (s, []).
Proof. intros H. unfold sched_step. cbn [fst snd]. by rewrite H. Qed.

(** *** Counter conservation *)

Lemma worker_step_conserved (e : Q) (i : Input) (r : Runner) (p : pc) :
  conserved r -> conserved (worker_step e i r p).1.1.
Proof.
  unfold conserved. intros H.
  destruct p, i; cbn [worker_step]; try done;
    unfold _one_enter, _one_wake, _one_reply, gate;
    repeat case_match; cbn; try done;
    unfold record_response, record_exception; cbn;
    repeat case_match; cbn; lia.
Qed.

Lemma sched_step_conserved (s : Sys) (wi : nat * Input) :
  conserved (runner s) -> conserved (runner (sched_step s wi).1).
Proof.
  intros H. destruct wi as [w i].
  destruct (tasks s !! w) as [p|] eqn:Hw.
  - rewrite (sched_step_unfold _ _ _ _ Hw).
    pose proof (worker_step_conserved (end_time s) i (runner s) p H) as H'.
    by destruct (worker_step (end_time s) i (runner s) p) as [[r' p'] evs].
  - by rewrite (sched_step_skip _ _ _ Hw).
Qed.

Lemma exec_conserved (sched : list (nat * Input)) (s : Sys) :
  conserved (runner s) -> conserved (runner (exec sched s).1).
Proof.
  intros H.
  apply (exec_invariant (fun s => conserved (runner s)) (fun _ => True));
    try done.
  intros s' wi H'. split; [by apply sched_step_conserved | done].
Qed.

(** *** The gate of line 46 *)

Lemma rate_limited_true (r : Runner) : rate_limited r = true <-> 0 < rps r.
Proof.
  unfold rate_limited. rewrite andb_true_iff, Qltb_true, negb_true_iff.
  split; [tauto|]. intros H. split; [|done].
  apply not_true_iff_false. rewrite Qeq_bool_iff. lra.
Qed.

Lemma rate_limited_zero (r : Runner) : rps r == 0 -> rate_limited r = false.
Proof.
  intros H. apply not_true_iff_false. rewrite rate_limited_true. lra.
Qed.

Lemma worker_step_unlimited (e : Q) (i : Input) (r : Runner) (p : pc) :
  rate_limited r = false -> outside_one p = true ->
  exists p', worker_step e i r p = (r, p', []) /\ outside_one p' = true.
Proof.
  intros Hr Hp.
  destruct p, i; try discriminate Hp; cbn [worker_step];
    unfold _one_enter; rewrite ?Hr; repeat case_match; eauto.
Qed.

Lemma sched_step_unlimited (s : Sys) (wi : nat * Input) :
  rate_limited (runner s) = false ->
  Forall (fun p => outside_one p = true) (tasks s) ->
  let s' := (sched_step s wi).1 in
  (runner s' = runner s /\
   Forall (fun p => outside_one p = true) (tasks s')) /\
  (sched_step s wi).2 = [].
Proof.
  intros Hr Hall. destruct wi as [w i].
  destruct (tasks s !! w) as [p|] eqn:Hw.
  - rewrite (sched_step_unfold _ _ _ _ Hw).
    assert (outside_one p = true) as Hp
      by apply (proj1 (Forall_lookup _ _) Hall _ _ Hw).
    destruct (worker_step_unlimited (end_time s) i _ p Hr Hp)
      as (p' & -> & Hp').
    cbn. repeat split. by apply Forall_insert.
  - rewrite (sched_step_skip _ _ _ Hw). by cbn.
Qed.

Lemma exec_unlimited (sched : list (nat * Input)) (s : Sys) :
  rate_limited (runner s) = false ->
  Forall (fun p => outside_one p = true) (tasks s) ->
  runner (exec sched s).1 = runner s /\ (exec sched s).2 = [].
Proof.
  intros Hr Hall.
  pose (P := fun s' : Sys =>
               runner s' = runner s /\
               Forall (fun p => outside_one p = true) (tasks s')).
  destruct (exec_invariant P (fun evs => evs = [])) with sched s
    as [[H1 _] H2]; try done.
  - by intros ?? -> ->.
  - intros s' wi [Hrun Hall'].
    destruct (sched_step_unlimited s' wi) as [[H1 H2] H3];
      [by rewrite Hrun | done |].
    repeat split; [by rewrite H1 | done | done].
Qed.

Lemma run_tasks_created (t101 t104 : Q) (r : Runner) :
  Forall (fun p => outside_one p = true) (tasks (run t101 t104 r)).
Proof. cbn. by apply Forall_replicate. Qed.

(** *** How [main] ends *)

(** [main] is the run of the schedule from [run], unless line 101
    overflows. *)
Lemma main_cases
    (a : Args) (t36 t101 t104 : Q) (sched : list (nat * Input)) :
  let r := set_rps (arg_rps a)
             (__init__ (arg_target a) (arg_concurrency a) (arg_duration a)
                       t36) in
  let out := main a t36 t101 t104 sched in
  (float_overflows (arg_duration a) = true /\
   out.1.1 = {| runner := r; end_time := t101; tasks := [] |} /\
   out.1.2 = [] /\ out.2 = Escaped Overflow) \/
  (float_overflows (arg_duration a) = false /\
   out.1.1 = (exec sched (run t101 t104 r)).1 /\
   out.1.2 = (exec sched (run t101 t104 r)).2 /\
   out.2 = if (arg_concurrency a <? 1)%Z then Escaped Cancelled
           else Printed (report (runner out.1.1))).
Proof.
  cbv zeta. unfold main.
  destruct (float_overflows (arg_duration a)); [by left|]. right.
  by destruct (exec sched _) as [s evs].
Qed.

Lemma main_reports
    (a : Args) (t36 t101 t104 : Q) (sched : list (nat * Input)) :
  let out := main a t36 t101 t104 sched in
  reports a out.2 (report (runner out.1.1)).
Proof.
  cbv zeta.
  destruct (main_cases a t36 t101 t104 sched)
    as [(Ho & _ & _ & ->) | (_ & _ & _ & ->)]; [by right|].
  destruct (Z.ltb_spec (arg_concurrency a) 1); [by left | done].
Qed.

(** C1 (the code departs from the claim). With [rps = 0] the test of
    line 46 fails and [_one] returns at once, because lines 72-93 are
    inside that [if]: whatever the schedule, a run of [main] issues no
    request, counts none, and the report of the runner it ends with, which
    is the one it prints, shows zero requests and no last response. *)
Theorem unlimited_mode_issues_no_request
    (a : Args) (t36 t101 t104 : Q) (sched : list (nat * Input)) :
  arg_rps a == 0 ->
  let out := main a t36 t101 t104 sched in
  let rep := report (runner out.1.1) in
  out.1.2 = [] /\ sent out.1.2 = [] /\
  rep_total rep = 0%Z /\ rep_success rep = 0%Z /\
  rep_failure rep = 0%Z /\ rep_last rep = None /\
  reports a out.2 rep.
Proof.
  intros Hrps out rep.
  assert (reports a out.2 rep) as Hrep by apply main_reports.
  subst rep.
  destruct (main_cases a t36 t101 t104 sched)
    as [(_ & Hs & He & _) | (_ & Hs & He & _)];
    fold out in Hs, He; rewrite Hs in *; rewrite He; clear Hs He.
  { repeat split; done. }
  set (r := set_rps _ _) in *.
  destruct (exec_unlimited sched (run t101 t104 r)) as [Hrun Hevs].
  - apply rate_limited_zero. exact Hrps.
  - apply run_tasks_created.
  - rewrite Hevs, Hrun in *. repeat split; done.
Qed.

(** One worker, ten seconds, [--rps 0] (the default), resumed twice
    before the deadline. *)
Lemma unlimited_mode_issues_no_request_witness :
  0 == 0 /\
  let out := main (mkArgs "http://x/api/search" 1 10 0) 0 0 0
               [(0%nat, Resume 1 1 1 (mkDraw "n" 0));
                (0%nat, Resume 2 2 2 (mkDraw "m" 1))] in
  let rep := report (runner out.1.1) in
  out.2 = Printed (mkReport 0 0 0 None None) /\
  out.1.2 = [] /\ sent out.1.2 = [] /\
  rep_total rep = 0%Z /\ rep_success rep = 0%Z /\
  rep_failure rep = 0%Z /\ rep_last rep = None /\
  reports (mkArgs "http://x/api/search" 1 10 0) out.2 rep.
Proof.
  split; [reflexivity|]. split; [reflexivity|].
  apply (unlimited_mode_issues_no_request
           (mkArgs "http://x/api/search" 1 10 0)).
  reflexivity.
Defined.

(** *** The token bucket *)

Lemma bucket_ok_later (t t' : Q) (r : Runner) :
  bucket_ok t r -> t <= t' -> bucket_ok t' r.
Proof. unfold bucket_ok. intros (? & ? & ?) ?. repeat split; lra. Qed.

Lemma refill_entry_ok (t now : Q) (r : Runner) :
  bucket_ok t r -> t <= now ->
  bucket_ok now (refill_entry now r) /\
  _tokens (refill_entry now r) <= rps r * 2.
Proof.
  unfold bucket_ok, refill_entry. intros (Hr & Hk & Hf) Hnow. cbn.
  assert (0 <= accrued (_tokens r) (_last_fill r) now (rps r)) as Hacc
    by (apply accrued_nonneg; lra).
  destruct (Qltb _ _) eqn:Hcap.
  - repeat split; lra.
  - apply Qltb_false in Hcap. repeat split; lra.
Qed.

Lemma refill_wake_ok (t now : Q) (r : Runner) :
  bucket_ok t r -> t <= now -> bucket_ok now (refill_wake now r).
Proof.
  unfold bucket_ok, refill_wake. intros (Hr & Hk & Hf) Hnow. cbn.
  assert (0 <= accrued (_tokens r) (_last_fill r) now (rps r)) as Hacc
    by (apply accrued_nonneg; lra).
  repeat split; lra.
Qed.

Lemma gate_ok (t : Q) (d : Draw) (t75 : Q) (r : Runner) :
  bucket_ok t r -> bucket_ok t (gate d t75 r).1.1.
Proof.
  unfold bucket_ok, gate. intros (Hr & Hk & Hf).
  destruct (Qltb _ _) eqn:Hlt; cbn; [done|].
  apply Qltb_false in Hlt. repeat split; try lra.
  apply fl_nonneg. lra.
Qed.

Lemma _one_reply_bucket (t : Q) (res : result) (start t78 : Q)
    (r : Runner) :
  bucket_ok t r -> bucket_ok t (_one_reply res start t78 r).1.1.
Proof.
  unfold _one_reply. intros H. repeat case_match; exact H.
Qed.

Lemma worker_step_bucket (t e : Q) (i : Input) (r : Runner) (p : pc) :
  bucket_ok t r -> monotone_from t (readings i) = true ->
  bucket_ok (last_reading t (readings i)) (worker_step e i r p).1.1.
Proof.
  intros Hok Hmono.
  assert (bucket_ok (last_reading t (readings i)) r) as Hlater
    by (eapply bucket_ok_later; [done | by apply monotone_from_last]).
  destruct p, i; cbn [worker_step]; try exact Hlater;
    try (by apply _one_reply_bucket);
    cbn [readings monotone_from] in Hmono;
    repeat (apply andb_true_iff in Hmono as [?%Qle_bool_iff Hmono]);
    cbn [readings last_reading fold_left];
    unfold _one_enter, _one_wake; repeat case_match;
    try exact Hlater; apply gate_ok;
    (eapply bucket_ok_later;
     [ first [ eapply refill_entry_ok | eapply refill_wake_ok ];
       [exact Hok | lra]
     | lra ]).
Qed.

Lemma exec_bucket (sched : list (nat * Input)) (s : Sys) (t : Q) :
  bucket_ok t (runner s) -> monotone_from t (clock_of sched) = true ->
  bucket_ok (last_reading t (clock_of sched)) (runner (exec sched s).1).
Proof.
  revert s t. induction sched as [|[w i] sched IH]; intros s t Hok Hmono;
    [exact Hok|].
  unfold clock_of in *. cbn [flat_map snd] in *.
  rewrite monotone_from_app in Hmono.
  apply andb_true_iff in Hmono as [Hi Hrest].
  unfold last_reading in *. rewrite fold_left_app. cbn [exec].
  assert (bucket_ok (fold_left (fun _ x => x) (readings i) t)
            (runner (sched_step s (w, i)).1)) as Hstep.
  { destruct (tasks s !! w) as [p|] eqn:Hw.
    - rewrite (sched_step_unfold _ _ _ _ Hw).
      pose proof (worker_step_bucket t (end_time s) i _ p Hok Hi) as H.
      by destruct (worker_step _ _ _ _) as [[r' p'] evs].
    - rewrite (sched_step_skip _ _ _ Hw). cbn.
      eapply bucket_ok_later; [done | by apply monotone_from_last]. }
  destruct (sched_step s (w, i)) as [s1 e1]. cbn [fst] in Hstep.
  specialize (IH s1 _ Hstep Hrest).
  by destruct (exec sched s1) as [s2 e2].
Qed.

(** C6, as amended. In a run with [rps > 0] whose clock never runs
    backwards, the token count is never negative: not between two
    segments of any task, not after the next refill on entry, not after
    the next refill inside the wait loop. The refill on entry leaves at
    most [rps * 2] tokens. The refill inside the wait loop has no upper
    bound: nothing is claimed of it beyond [0 <= tokens]. *)
Theorem token_bucket_bounds
    (r : Runner) (t101 t104 : Q) (sched : list (nat * Input)) :
  0 < rps r ->
  monotone_from t104 (clock_of sched) = true ->
  let r' := runner (exec sched (run t101 t104 r)).1 in
  0 <= _tokens r' /\
  forall now, last_reading t104 (clock_of sched) <= now ->
    0 <= _tokens (refill_entry now r') <= rps r' * 2 /\
    0 <= _tokens (refill_wake now r').
Proof.
  intros Hrps Hmono r'.
  assert (bucket_ok (last_reading t104 (clock_of sched)) r') as Hok.
  { apply exec_bucket; [|done]. unfold bucket_ok. cbn.
    repeat split; [done | apply Qle_refl | apply Qle_refl]. }
  split; [apply Hok|]. intros now Hnow.
  destruct (refill_entry_ok _ now r' Hok Hnow) as [(_ & H1 & _) H2].
  destruct (refill_wake_ok _ now r' Hok Hnow) as (_ & H3 & _).
  done.
Qed.

(** A quarter of a request per second: one worker asks at 0, sleeps the
    four seconds it is told to, and gets its token at 4. *)
Lemma token_bucket_bounds_witness :
  let r := set_rps (1 # 4) (__init__ "http://x/api/search" 1 60 0) in
  let sched := [(0%nat, Resume 0 0 0 (mkDraw "n" 0));
                (0%nat, Wake 4 4 (mkDraw "n" 0))] in
  0 < rps r /\
  monotone_from 0 (clock_of sched) = true /\
  let r' := runner (exec sched (run 0 0 r)).1 in
  0 <= _tokens r' /\
  forall now, last_reading 0 (clock_of sched) <= now ->
    0 <= _tokens (refill_entry now r') <= rps r' * 2 /\
    0 <= _tokens (refill_wake now r').
Proof.
  intros r sched.
  split; [reflexivity|]. split; [reflexivity|].
  apply (token_bucket_bounds r 0 0 sched); reflexivity.
Defined.

(** C6 fails as stated. At [rps = 1/4] the capacity [rps * 2] is half a
    token. The worker that asks at 0 is told to sleep 4 seconds; the
    refill of lines 66-69 at 4 then holds a whole token, twice the
    capacity, and the request goes out. Had the task been resumed at 12
    instead, two tokens would remain after the one it takes. *)
Lemma wait_loop_refill_exceeds_capacity :
  let r := set_rps (1 # 4) (__init__ "http://x/api/search" 1 60 0) in
  let d := mkDraw "n" 0 in
  let s1 := (exec [(0%nat, Resume 0 0 0 d)] (run 0 0 r)).1 in
  let s2 := (exec [(0%nat, Wake 12 12 d)] s1).1 in
  (exists dly, tasks s1 !! 0%nat = Some (Sleeping dly) /\ dly == 4) /\
  monotone_from 0 [0; 0; 0; 4; 4] = true /\
  _tokens (refill_wake 4 (runner s1)) == 1 /\
  rps r * 2 < _tokens (refill_wake 4 (runner s1)) /\
  sent (exec [(0%nat, Wake 4 4 d)] s1).2
    = [build_request "http://x/api/search" "n" 0] /\
  _tokens (runner s2) == 2 /\
  rps r * 2 < _tokens (runner s2).
Proof.
  cbv zeta. split; [|by vm_compute].
  eexists. split; [by vm_compute | by vm_compute].
Qed.



(** *** Requests and the gate *)

Lemma gated_from_weaken (b : bool) (evs : list Event) :
  gated_from false evs = true -> gated_from b evs = true.
Proof. destruct evs as [|[] ?]; cbn; try done. Qed.

Lemma gated_from_app (b : bool) (a c : list Event) :
  gated_from b a = true -> gated c = true -> gated_from b (a ++ c) = true.
Proof.
  revert b. induction a as [|e a IH]; intros b Ha Hc; cbn [app].
  - by apply gated_from_weaken.
  - destruct e; cbn [gated_from] in *;
      rewrite ?andb_true_iff in *; intuition auto.
Qed.

Lemma gate_gated (d : Draw) (t75 : Q) (r : Runner) :
  gated (gate d t75 r).2 = true.
Proof.
  unfold gate, gated. destruct (Qltb _ _) eqn:Hlt; cbn; [done|].
  apply Qltb_false in Hlt. rewrite andb_true_r.
  apply Qle_bool_iff. apply fl_nonneg. lra.
Qed.

Lemma worker_step_gated (e : Q) (i : Input) (r : Runner) (p : pc) :
  gated (worker_step e i r p).2 = true.
Proof.
  destruct p, i; cbn [worker_step]; try done;
    unfold _one_enter, _one_wake, _one_reply;
    repeat case_match; try done; apply gate_gated.
Qed.

Lemma exec_gated (sched : list (nat * Input)) (s : Sys) :
  gated (exec sched s).2 = true.
Proof.
  apply (exec_invariant (fun _ => True) (fun evs => gated evs = true));
    try done.
  - intros a b. apply gated_from_app.
  - intros s' [w i] _. split; [done|].
    destruct (tasks s' !! w) as [p|] eqn:Hw.
    + rewrite (sched_step_unfold _ _ _ _ Hw).
      pose proof (worker_step_gated (end_time s') i (runner s') p) as H.
      by destruct (worker_step _ _ _ _) as [[r' p'] evs].
    + by rewrite (sched_step_skip _ _ _ Hw).
Qed.

Lemma build_request_ok (tgt name : string) (x : Z) :
  request_ok tgt (build_request tgt name x).
Proof.
  unfold request_ok, build_request. cbn. repeat split.
  exists name, (randint 1 5 x). split; [done|].
  unfold randint. pose proof (Z.mod_pos_bound x (5 - 1 + 1)). lia.
Qed.

Lemma worker_step_target (e : Q) (i : Input) (r : Runner) (p : pc) :
  target (worker_step e i r p).1.1 = target r.
Proof.
  destruct p, i; cbn [worker_step]; try done;
    unfold _one_enter, _one_wake, _one_reply, gate;
    repeat case_match; done.
Qed.

Lemma worker_step_sent (e : Q) (i : Input) (r : Runner) (p : pc) :
  Forall (request_ok (target r)) (sent (worker_step e i r p).2).
Proof.
  destruct p, i; cbn [worker_step]; try (by constructor);
    unfold _one_enter, _one_wake, _one_reply, gate;
    repeat case_match; cbn; try (by constructor);
    (constructor; [apply build_request_ok | constructor]).
Qed.

Lemma sent_app (a b : list Event) : sent (a ++ b) = sent a ++ sent b.
Proof. unfold sent. by rewrite flat_map_app. Qed.

Lemma exec_sent (sched : list (nat * Input)) (s : Sys) :
  Forall (request_ok (target (runner s))) (sent (exec sched s).2).
Proof.
  pose (tgt := target (runner s)).
  apply (exec_invariant (fun s' => target (runner s') = tgt)
           (fun evs => Forall (request_ok tgt) (sent evs)));
    [by constructor | | | done].
  - intros a b Ha Hb. rewrite sent_app. by apply Forall_app.
  - intros s' [w i] Htgt.
    destruct (tasks s' !! w) as [p|] eqn:Hw.
    + rewrite (sched_step_unfold _ _ _ _ Hw).
      pose proof (worker_step_target (end_time s') i (runner s') p) as H1.
      pose proof (worker_step_sent (end_time s') i (runner s') p) as H2.
      destruct (worker_step _ _ _ _) as [[r' p'] evs]. cbn in *.
      split; congruence.
    + rewrite (sched_step_skip _ _ _ Hw). split; [done | by constructor].
Qed.

(** *** The tasks of a run *)

Lemma exec_end_time (sched : list (nat * Input)) (s : Sys) :
  end_time (exec sched s).1 = end_time s.
Proof.
  apply (exec_invariant (fun s' => end_time s' = end_time s)
           (fun _ => True)); try done.
  intros s' [w i] Hend. split; [|done].
  destruct (tasks s' !! w) as [p|] eqn:Hw.
  - rewrite (sched_step_unfold _ _ _ _ Hw).
    by destruct (worker_step _ _ _ _) as [[r' p'] evs].
  - by rewrite (sched_step_skip _ _ _ Hw).
Qed.

Lemma exec_tasks_length (sched : list (nat * Input)) (s : Sys) :
  length (tasks (exec sched s).1) = length (tasks s).
Proof.
  apply (exec_invariant
           (fun s' => length (tasks s') = length (tasks s))
           (fun _ => True)); try done.
  intros s' [w i] Hlen. split; [|done].
  destruct (tasks s' !! w) as [p|] eqn:Hw.
  - rewrite (sched_step_unfold _ _ _ _ Hw).
    destruct (worker_step _ _ _ _) as [[r' p'] evs]. cbn.
    by rewrite length_insert.
  - by rewrite (sched_step_skip _ _ _ Hw).
Qed.

End CliRun.

(** ** The control API and its background job *)

Section ServerRun.
Import Http Server.

Lemma srv_exec_invariant (P : Sys -> Prop) (E : list Event -> Prop) :
  E [] -> (forall a b, E a -> E b -> E (a ++ b)) ->
  (forall s i, P s -> P (step s i).1 /\ E (step s i).2) ->
  forall sched s, P s -> P (exec sched s).1 /\ E (exec sched s).2.
Proof.
  intros Hnil Happ Hstep sched.
  induction sched as [|i sched IH]; intros s HP; cbn [exec].
  - by split.
  - destruct (Hstep s i HP) as [HP1 HE1].
    destruct (step s i) as [s1 e1]; cbn [fst snd] in *.
    destruct (IH s1 HP1) as [HP2 HE2].
    destruct (exec sched s1) as [s2 e2]; cbn [fst snd] in *.
    split; [done | by apply Happ].
Qed.

(** *** Counter conservation *)

Lemma start_test_conserved (c d : Z) (tgt : string) (t : Q) (s : Sys) :
  conserved (_state s) -> conserved (_state (start_test c d tgt t s).1).
Proof. unfold start_test. intros H. by case_match. Qed.

Lemma stop_test_conserved (t : Q) (s : Sys) :
  conserved (_state s) -> conserved (_state (stop_test t s).1).
Proof. unfold stop_test. intros H. by case_match. Qed.

Lemma record_response_conserved (el : Q) (resp : Response) (st : State) :
  conserved st -> conserved (record_response el resp st).
Proof.
  unfold conserved, record_response. cbn. intros H. case_match; lia.
Qed.

Lemma record_exception_conserved (st : State) :
  conserved st -> conserved (record_exception st).
Proof. unfold conserved, record_exception. cbn. lia. Qed.

Lemma task_step_conserved (id : nat) (i : TaskInput) (s : Sys) :
  conserved (_state s) -> conserved (_state (task_step id i s).1).
Proof.
  intros H. unfold task_step, _run_load_start, _run_load_gather,
    loop_worker_head, _worker_reply.
  repeat case_match; cbn [fst _state]; try done;
    first [ by apply record_response_conserved
          | by apply record_exception_conserved ].
Qed.

Lemma step_conserved (s : Sys) (i : Input) :
  conserved (_state s) ->
  conserved (_state (step s i).1) /\
  Forall snapshot_conserved (snapshots (step s i).2).
Proof.
  intros H. destruct i as [c d tgt t|t|t|id i]; cbn [step].
  - pose proof (start_test_conserved c d tgt t s H).
    destruct (start_test c d tgt t s). split; [done | constructor].
  - pose proof (stop_test_conserved t s H).
    destruct (stop_test t s). split; [done | constructor].
  - split; [done|]. repeat constructor. exact H.
  - split; [by apply task_step_conserved|].
    unfold task_step, loop_worker_head, _worker_reply.
    repeat case_match; cbn; constructor.
Qed.

Lemma snapshots_app (a b : list Event) :
  snapshots (a ++ b) = snapshots a ++ snapshots b.
Proof. unfold snapshots. by rewrite flat_map_app. Qed.

Lemma srv_exec_conserved (sched : list Input) (s : Sys) :
  conserved (_state s) ->
  conserved (_state (exec sched s).1) /\
  Forall snapshot_conserved (snapshots (exec sched s).2).
Proof.
  intros H.
  apply (srv_exec_invariant (fun s => conserved (_state s))
           (fun evs => Forall snapshot_conserved (snapshots evs)));
    [by constructor | | | done].
  - intros a b Ha Hb. rewrite snapshots_app. by apply Forall_app.
  - intros s' i. apply step_conserved.
Qed.

(** *** Traces *)

Lemma sent_app_srv (a b : list Event) : sent (a ++ b) = sent a ++ sent b.
Proof. unfold sent. by rewrite flat_map_app. Qed.

(** *** The task list *)

Lemma cancel_all_length (ids : list nat) (l : list Task) :
  length (cancel_all ids l) = length l.
Proof.
  unfold cancel_all. revert l.
  induction ids as [|id ids IH]; intros l; cbn [fold_left]; [done|].
  rewrite IH. destruct (l !! id); [by rewrite length_insert | done].
Qed.

(** C8. [start_test] called while [_state["running"]] is true answers
    400 with the error "test already running", and [stop_test] called
    while it is false answers 400 with "not running"; in both cases the
    process is left exactly as it was: [_state] with its counters, start
    and end time, last response and running flag, the list [_tasks], and
    every task of the event loop. *)
Theorem lifecycle_rejections
    (s1 s2 : Sys) (c d : Z) (tgt : string) (t50 t165 : Q) :
  running (_state s1) = true ->
  running (_state s2) = false ->
  start_test c d tgt t50 s1 =
    (s1, {| http_status := 400; json := JError "test already running" |})
  /\
  stop_test t165 s2 =
    (s2, {| http_status := 400; json := JStatus "not running" |}).
Proof.
  intros H1 H2. unfold start_test, stop_test. by rewrite H1, H2.
Qed.

(** A second /start half a second into a run that has counted one
    request, and a /stop on the process as it is when the module is loaded. *)
Lemma lifecycle_rejections_witness :
  let resp := mkResponse 200 (Some "ok"%string) "b'ok'" in
  let s1 := (exec [PostStart 1 10 "http://x/api/search" 0;
                   RunTask 0 (Go 0 0 "");
                   RunTask 1 (Go 0 0 "n");
                   RunTask 1 (Reply (Returns resp) (1 # 4))] sys0).1 in
  (running (_state s1) = true /\ total_requests (_state s1) = 1%Z) /\
  running (_state sys0) = false /\
  start_test 5 20 "http://y/" (1 # 2) s1 =
    (s1, {| http_status := 400; json := JError "test already running" |})
  /\
  stop_test (1 # 2) sys0 =
    (sys0, {| http_status := 400; json := JStatus "not running" |}).
Proof.
  intros resp s1. split; [by vm_compute|]. split; [reflexivity|].
  apply (lifecycle_rejections s1 sys0 5 20 "http://y/" (1 # 2) (1 # 2));
    reflexivity.
Defined.

End ServerRun.

(** ** Both shapes *)

Section BothShapes.
Import Http.

(** C2. After any schedule of the command-line run, and after any
    sequence of control calls and task segments of the server process,
    the total counter is the sum of the success and failure counters;
    the same holds of the figures [report] prints, of the progress line
    of [reporter] at any moment, and of every answer of /status given on
    the way. *)
Theorem counter_conservation
    (a : Cli.Args) (t36 t101 t104 t118 : Q)
    (csched : list (nat * Cli.Input)) (ssched : list Server.Input) :
  let cli := Cli.main a t36 t101 t104 csched in
  let srv := Server.exec ssched Server.sys0 in
  let rep := Cli.report (Cli.runner cli.1.1) in
  let line := Cli.reporter_line t118 cli.1.1 in
  (Cli.conserved (Cli.runner cli.1.1) /\
   Cli.rep_total rep = (Cli.rep_success rep + Cli.rep_failure rep)%Z /\
   Cli.reports a cli.2 rep /\
   Cli.line_total line = (Cli.line_success line + Cli.line_failure line)%Z)
  /\
  (Server.conserved (Server._state srv.1) /\
   Forall Server.snapshot_conserved (Server.snapshots srv.2)).
Proof.
  intros cli srv rep line. split.
  - assert (Cli.conserved (Cli.runner cli.1.1)) as Hc.
    { destruct (main_cases a t36 t101 t104 csched)
        as [(_ & Hs & _) | (_ & Hs & _)]; fold cli in Hs; rewrite Hs.
      - reflexivity.
      - apply exec_conserved. reflexivity. }
    repeat split; try exact Hc. apply main_reports.
  - apply srv_exec_conserved. reflexivity.
Qed.

(** C7. A transport failure of an in-flight request (connection error,
    timeout or protocol error) is caught by [except Exception]: the
    counters record one more request and one more failure, the last
    response has no status code and a body that is not empty, the task
    goes on to the yield at the end of its iteration, and no other task
    is touched. *)
Theorem transport_failure_is_recorded
    (e : exn)
    (cs : Cli.Sys) (w : nat) (start t78 : Q) (req : Request)
    (ss : Server.Sys) (id : nat) (tk : Server.Task) (tgt : string)
    (stop_at sstart t99 : Q) (sreq : Request) :
  is_transport e = true ->
  Cli.tasks cs !! w = Some (Cli.InFlight start req) ->
  Server.loop ss !! id = Some tk ->
  Server.at_pc tk = Server.WkInFlight tgt stop_at sstart sreq ->
  Server.cancel_requested tk = false ->
  let cs' := (Cli.sched_step cs (w, Cli.Reply (Raises e) t78)).1 in
  let ss' := (Server.task_step id (Server.Reply (Raises e) t99) ss).1 in
  (Cli.tasks cs' !! w = Some Cli.Yielded /\
   (forall w', w' <> w -> Cli.tasks cs' !! w' = Cli.tasks cs !! w') /\
   Cli.total (Cli.runner cs') = (Cli.total (Cli.runner cs) + 1)%Z /\
   Cli.failure (Cli.runner cs') = (Cli.failure (Cli.runner cs) + 1)%Z /\
   Cli.success (Cli.runner cs') = Cli.success (Cli.runner cs) /\
   exists body, Cli.last_response (Cli.runner cs') = Some (None, body) /\
                body <> ""%string)
  /\
  (Server.loop ss' !! id
     = Some (Server.mkTask (Server.WkYielded tgt stop_at) false) /\
   (forall id', id' <> id ->
      Server.loop ss' !! id' = Server.loop ss !! id') /\
   Server.running (Server._state ss') = Server.running (Server._state ss)
   /\
   Server.total_requests (Server._state ss')
     = (Server.total_requests (Server._state ss) + 1)%Z /\
   Server.failure (Server._state ss')
     = (Server.failure (Server._state ss) + 1)%Z /\
   Server.success (Server._state ss') = Server.success (Server._state ss)
   /\
   exists body,
     Server.last_response (Server._state ss')
       = Some (Server.mkLast None body) /\
     body <> ""%string).
Proof.
  intros He Hw Hid Hpc Hc cs' ss'.
  assert (is_Exception e = true) as Hexc by (by destruct e).
  split.
  - subst cs'. rewrite (sched_step_unfold _ _ _ _ Hw).
    cbn [Cli.worker_step Cli._one_reply]. rewrite Hexc. cbn.
    repeat split.
    + apply list_lookup_insert_eq. by eapply lookup_lt_Some.
    + intros w' Hne. by apply list_lookup_insert_ne.
    + eexists. split; [reflexivity | discriminate].
  - subst ss'. unfold Server.task_step. rewrite Hid, Hpc, Hc.
    unfold Server._worker_reply. rewrite Hexc. cbn.
    unfold Server.set_pc. rewrite Hid, Hc.
    repeat split.
    + apply list_lookup_insert_eq. by eapply lookup_lt_Some.
    + intros id' Hne. by apply list_lookup_insert_ne.
    + eexists. split; [reflexivity | discriminate].
Qed.

(** A timeout one second after the request left, in a command-line run
    at two requests per second and in a server run. *)
Lemma transport_failure_is_recorded_witness :
  let e := TimeoutException "timed out" in
  let d := Cli.mkDraw "n" 0 in
  let r := Cli.set_rps 2 (Cli.__init__ "http://x/api/search" 2 10 0) in
  let cs := (Cli.exec [(0%nat, Cli.Resume 0 0 0 d);
                       (0%nat, Cli.Wake 1 1 d)] (Cli.run 0 0 r)).1 in
  let ss := (Server.exec [Server.PostStart 2 10 "http://x/api/search" 0;
                          Server.RunTask 0 (Server.Go 0 0 "");
                          Server.RunTask 2 (Server.Go 1 1 "n")]
               Server.sys0).1 in
  let cs' := (Cli.sched_step cs (0%nat, Cli.Reply (Raises e) 2)).1 in
  let ss' := (Server.task_step 2 (Server.Reply (Raises e) 2) ss).1 in
  (Cli.tasks cs' !! 0%nat = Some Cli.Yielded /\
   (forall w', w' <> 0%nat -> Cli.tasks cs' !! w' = Cli.tasks cs !! w') /\
   Cli.total (Cli.runner cs') = (Cli.total (Cli.runner cs) + 1)%Z /\
   Cli.failure (Cli.runner cs') = (Cli.failure (Cli.runner cs) + 1)%Z /\
   Cli.success (Cli.runner cs') = Cli.success (Cli.runner cs) /\
   exists body, Cli.last_response (Cli.runner cs') = Some (None, body) /\
                body <> ""%string)
  /\
  (Server.loop ss' !! 2%nat
     = Some (Server.mkTask
               (Server.WkYielded "http://x/api/search" (0 + inject_Z 10))
               false) /\
   (forall id', id' <> 2%nat ->
      Server.loop ss' !! id' = Server.loop ss !! id') /\
   Server.running (Server._state ss') = Server.running (Server._state ss)
   /\
   Server.total_requests (Server._state ss')
     = (Server.total_requests (Server._state ss) + 1)%Z /\
   Server.failure (Server._state ss')
     = (Server.failure (Server._state ss) + 1)%Z /\
   Server.success (Server._state ss') = Server.success (Server._state ss)
   /\
   exists body,
     Server.last_response (Server._state ss')
       = Some (Server.mkLast None body) /\
     body <> ""%string).
Proof.
  intros e d r cs ss.
  eapply (transport_failure_is_recorded e cs 0%nat 1 2 _ ss 2%nat);
    reflexivity.
Defined.

(** C4 fails as stated. A request leaves at 1 and times out at 11:
    the command-line runner and the server both count the request and
    the failure, and both leave the cumulative latency at zero instead
    of adding the ten seconds the attempt took. *)
Lemma transport_failure_latency_not_added :
  let e := TimeoutException "timed out" in
  let d := Cli.mkDraw "n" 0 in
  let r := Cli.set_rps 2 (Cli.__init__ "http://x/api/search" 1 60 0) in
  let cs := (Cli.exec [(0%nat, Cli.Resume 0 0 0 d);
                       (0%nat, Cli.Wake 1 1 d);
                       (0%nat, Cli.Reply (Raises e) 11)]
               (Cli.run 0 0 r)).1 in
  let ss := (Server.exec [Server.PostStart 1 60 "http://x/api/search" 0;
                          Server.RunTask 0 (Server.Go 0 0 "");
                          Server.RunTask 1 (Server.Go 1 1 "n");
                          Server.RunTask 1 (Server.Reply (Raises e) 11)]
               Server.sys0).1 in
  (Cli.total (Cli.runner cs) = 1%Z /\ Cli.failure (Cli.runner cs) = 1%Z /\
   Cli.total_time (Cli.runner cs) == 0 /\
   ~ Cli.total_time (Cli.runner cs) == 0 + (11 - 1)) /\
  (Server.total_requests (Server._state ss) = 1%Z /\
   Server.failure (Server._state ss) = 1%Z /\
   Server.total_time (Server._state ss) == 0 /\
   ~ Server.total_time (Server._state ss) == 0 + (11 - 1)).
Proof. by vm_compute. Qed.

(** C4, as amended. Recording a response, 2xx or not, adds one to the
    total, one to success when the status is in 200..299 and one to
    failure otherwise, adds the measured latency to the cumulative
    latency, and replaces the last response by the status and the body
    cut at 2000 characters: the first 2000 characters of the decoded text
    or, when decoding fails, of the [repr] of the raw content (which the
    server first cuts at 1000). Recording a failure caught by
    [except Exception] adds one to the total and one to failure, leaves
    success and the cumulative latency as they are, and replaces the
    last response by one without status. *)
Theorem record_outcome_effect
    (resp : Response) (e : exn) (start t : Q)
    (r : Cli.Runner) (st : Server.State) :
  is_Exception e = true ->
  let ok := is_2xx (status_code resp) in
  let r1 := (Cli._one_reply (Returns resp) start t r).1.1 in
  let r2 := (Cli._one_reply (Raises e) start t r).1.1 in
  let st1 := Server.record_response (t - start) resp st in
  let st2 := Server.record_exception st in
  let body := match text resp with
              | Some s => s
              | None => content_repr resp
              end in
  let sbody := match text resp with
               | Some s => s
               | None => take_chars 1000 (content_repr resp)
               end in
  (Cli.total r1 = (Cli.total r + 1)%Z /\
   Cli.success r1 = (Cli.success r + if ok then 1 else 0)%Z /\
   Cli.failure r1 = (Cli.failure r + if ok then 0 else 1)%Z /\
   Cli.total_time r1 = Cli.total_time r + (t - start) /\
   Cli.last_response r1
     = Some (Some (status_code resp), take_chars 2000 body) /\
   String.prefix (take_chars 2000 body) body = true /\
   String.length (take_chars 2000 body)
     = Nat.min 2000 (String.length body)) /\
  (Cli.total r2 = (Cli.total r + 1)%Z /\
   Cli.success r2 = Cli.success r /\
   Cli.failure r2 = (Cli.failure r + 1)%Z /\
   Cli.total_time r2 = Cli.total_time r /\
   Cli.last_response r2 = Some (None, ("exception: " ++ str e)%string)) /\
  (Server.total_requests st1 = (Server.total_requests st + 1)%Z /\
   Server.success st1 = (Server.success st + if ok then 1 else 0)%Z /\
   Server.failure st1 = (Server.failure st + if ok then 0 else 1)%Z /\
   Server.total_time st1 = Server.total_time st + (t - start) /\
   Server.last_response st1
     = Some (Server.mkLast (Some (status_code resp))
                           (take_chars 2000 sbody)) /\
   String.prefix (take_chars 2000 sbody) sbody = true /\
   String.length (take_chars 2000 sbody)
     = Nat.min 2000 (String.length sbody)) /\
  (Server.total_requests st2 = (Server.total_requests st + 1)%Z /\
   Server.success st2 = Server.success st /\
   Server.failure st2 = (Server.failure st + 1)%Z /\
   Server.total_time st2 = Server.total_time st /\
   Server.last_response st2 = Some (Server.mkLast None "exception")).
Proof.
  intros He ok r1 r2 st1 st2 body sbody.
  subst r1 r2 st1 st2. cbn [Cli._one_reply]. rewrite He.
  cbn [fst snd Cli.record_response Cli.record_exception Cli.set_stats
       Cli.total Cli.success Cli.failure Cli.total_time Cli.last_response
       Server.record_response Server.record_exception Server.set_stats
       Server.total_requests Server.success Server.failure
       Server.total_time Server.last_response].
  fold ok body sbody.
  repeat split; try (destruct ok; lia);
    first [apply take_chars_prefix | apply take_chars_length_min].
Qed.

(** A 404 answered after a quarter of a second, and a refused
    connection. *)
Lemma record_outcome_effect_witness :
  let resp := mkResponse 404 (Some "not found"%string) "b'not found'" in
  let e := ConnectError "connection refused" in
  let r := Cli.__init__ "http://x/api/search" 1 10 0 in
  let st := Server._state0 in
  (Cli.last_response (Cli._one_reply (Returns resp) 1 (5 # 4) r).1.1
     = Some (Some 404%Z, "not found"%string) /\
   Cli.last_response (Cli._one_reply (Raises e) 1 (5 # 4) r).1.1
     = Some (None, "exception: connection refused"%string)) /\
  let ok := is_2xx (status_code resp) in
  let r1 := (Cli._one_reply (Returns resp) 1 (5 # 4) r).1.1 in
  let r2 := (Cli._one_reply (Raises e) 1 (5 # 4) r).1.1 in
  let st1 := Server.record_response ((5 # 4) - 1) resp st in
  let st2 := Server.record_exception st in
  let body := match text resp with
              | Some s => s
              | None => content_repr resp
              end in
  let sbody := match text resp with
               | Some s => s
               | None => take_chars 1000 (content_repr resp)
               end in
  (Cli.total r1 = (Cli.total r + 1)%Z /\
   Cli.success r1 = (Cli.success r + if ok then 1 else 0)%Z /\
   Cli.failure r1 = (Cli.failure r + if ok then 0 else 1)%Z /\
   Cli.total_time r1 = Cli.total_time r + ((5 # 4) - 1) /\
   Cli.last_response r1
     = Some (Some (status_code resp), take_chars 2000 body) /\
   String.prefix (take_chars 2000 body) body = true /\
   String.length (take_chars 2000 body)
     = Nat.min 2000 (String.length body)) /\
  (Cli.total r2 = (Cli.total r + 1)%Z /\
   Cli.success r2 = Cli.success r /\
   Cli.failure r2 = (Cli.failure r + 1)%Z /\
   Cli.total_time r2 = Cli.total_time r /\
   Cli.last_response r2 = Some (None, ("exception: " ++ str e)%string)) /\
  (Server.total_requests st1 = (Server.total_requests st + 1)%Z /\
   Server.success st1 = (Server.success st + if ok then 1 else 0)%Z /\
   Server.failure st1 = (Server.failure st + if ok then 0 else 1)%Z /\
   Server.total_time st1 = Server.total_time st + ((5 # 4) - 1) /\
   Server.last_response st1
     = Some (Server.mkLast (Some (status_code resp))
                           (take_chars 2000 sbody)) /\
   String.prefix (take_chars 2000 sbody) sbody = true /\
   String.length (take_chars 2000 sbody)
     = Nat.min 2000 (String.length sbody)) /\
  (Server.total_requests st2 = (Server.total_requests st + 1)%Z /\
   Server.success st2 = Server.success st /\
   Server.failure st2 = (Server.failure st + 1)%Z /\
   Server.total_time st2 = Server.total_time st /\
   Server.last_response st2 = Some (Server.mkLast None "exception")).
Proof.
  intros resp e r st. split; [by vm_compute|].
  exact (record_outcome_effect resp e 1 (5 # 4) r st eq_refl).
Defined.

(** C3 fails as stated. /start with concurrency 0, duration 0 and a
    target that is no URL answers "started", sets the running flag and
    creates the controller task. [main] with duration -1 and the same
    target creates its three worker tasks and ends with a report. *)
Lemma invalid_config_is_accepted :
  let srv := Server.start_test 0 0 "not a url" 5 Server.sys0 in
  let cli := Cli.main (Cli.mkArgs "not a url" 3 (-1) 1) 0 0 0 [] in
  (srv.2 = Server.mkApi 200 (Server.JStatus "started") /\
   Server.running (Server._state srv.1) = true /\
   Server._tasks srv.1 = [0%nat] /\
   Server.loop srv.1
     = [Server.mkTask (Server.CtlCreated 0 0 "not a url") false]) /\
  (Cli.tasks cli.1.1 = [Cli.Created; Cli.Created; Cli.Created] /\
   cli.2 = Cli.Printed (Cli.mkReport 0 0 0 None None)).
Proof. by vm_compute. Qed.

(** C3, as amended. No configuration is refused as invalid. When no run
    is in progress, [start_test] answers "started" for every
    concurrency, duration and target: it zeroes the counters, records
    the start time, sets the running flag and leaves in [_tasks] the one
    new controller task, created with the values it was given. [main],
    for every command line with a concurrency of at least 1 and a
    duration that fits a float, whatever the sign of the duration and
    whatever the target, runs as many worker tasks as the concurrency
    says until the deadline, the duration after its start, and ends by
    printing the report of the runner. *)
Theorem start_accepts_any_config
    (c d : Z) (tgt : string) (t50 : Q) (s : Server.Sys)
    (a : Cli.Args) (t36 t101 t104 : Q) (sched : list (nat * Cli.Input)) :
  Server.running (Server._state s) = false ->
  (1 <= Cli.arg_concurrency a)%Z ->
  float_overflows (Cli.arg_duration a) = false ->
  let srv := Server.start_test c d tgt t50 s in
  let cli := Cli.main a t36 t101 t104 sched in
  (srv.2 = Server.mkApi 200 (Server.JStatus "started") /\
   Server._state srv.1
     = Server.mkState true 0 0 0 0 (Some t50) None None /\
   Server._tasks srv.1 = [length (Server.loop s)] /\
   Server.loop srv.1 !! length (Server.loop s)
     = Some (Server.mkTask (Server.CtlCreated c d tgt) false)) /\
  (length (Cli.tasks cli.1.1) = Z.to_nat (Cli.arg_concurrency a) /\
   Cli.end_time cli.1.1 = t101 + inject_Z (Cli.arg_duration a) /\
   cli.2 = Cli.Printed (Cli.report (Cli.runner cli.1.1))).
Proof.
  intros Hrun Hc Hd srv cli. split.
  - subst srv. unfold Server.start_test. rewrite Hrun.
    cbn [fst snd Server._state Server._tasks Server.loop].
    rewrite cancel_all_length. repeat split.
    rewrite lookup_app_r by (rewrite cancel_all_length; lia).
    by rewrite cancel_all_length, Nat.sub_diag.
  - destruct (main_cases a t36 t101 t104 sched)
      as [(Ho & _) | (_ & Hs & _ & Hout)]; [congruence|].
    fold cli in Hs, Hout. rewrite Hout, Hs.
    rewrite exec_tasks_length, exec_end_time.
    assert ((Cli.arg_concurrency a <? 1)%Z = false) as -> by lia.
    cbn. by rewrite length_replicate.
Qed.

(** /start with concurrency 0 and duration -3 on the process as it is
    when the module is loaded, and a command line with two workers, a
    duration of -3 and a target that is no URL. *)
Lemma start_accepts_any_config_witness :
  let a := Cli.mkArgs "not a url" 2 (-3) 0 in
  let sched := [(0%nat, Cli.Resume 0 0 0 (Cli.mkDraw "n" 0))] in
  let srv := Server.start_test 0 (-3) "not a url" 5 Server.sys0 in
  let cli := Cli.main a 0 0 0 sched in
  (srv.2 = Server.mkApi 200 (Server.JStatus "started") /\
   Server._state srv.1
     = Server.mkState true 0 0 0 0 (Some 5) None None /\
   Server._tasks srv.1 = [length (Server.loop Server.sys0)] /\
   Server.loop srv.1 !! length (Server.loop Server.sys0)
     = Some (Server.mkTask (Server.CtlCreated 0 (-3) "not a url") false))
  /\
  (length (Cli.tasks cli.1.1) = Z.to_nat (Cli.arg_concurrency a) /\
   Cli.end_time cli.1.1 = 0 + inject_Z (Cli.arg_duration a) /\
   cli.2 = Cli.Printed (Cli.report (Cli.runner cli.1.1))).
Proof.
  intros a sched.
  apply (start_accepts_any_config 0 (-3) "not a url" 5 Server.sys0
           a 0 0 0 sched); [reflexivity | cbn; lia | reflexivity].
Defined.

(** C5 fails as stated. In the server a worker sends its first request
    at clock 0, records the answer, and sends the next one at the same
    clock reading: nothing stands between the test of line 126 and the
    request. *)
Lemma server_sends_without_gate :
  let resp := mkResponse 200 (Some "ok"%string) "b'ok'" in
  let tgt := "http://x/api/search"%string in
  let sched := [Server.PostStart 1 10 tgt 0;
                Server.RunTask 0 (Server.Go 0 0 "");
                Server.RunTask 1 (Server.Go 0 0 "n");
                Server.RunTask 1 (Server.Reply (Returns resp) 0);
                Server.RunTask 1 (Server.Go 0 0 "m")] in
  (Server.exec sched Server.sys0).2
    = [Server.EvApi (Server.mkApi 200 (Server.JStatus "started"));
       Server.EvSend (Server.build_request tgt "n");
       Server.EvRecord 1;
       Server.EvSend (Server.build_request tgt "m")].
Proof. reflexivity. Qed.

(** C5, as amended. In the command-line run every request is sent right
    after the token bucket gave a token, which it does only when at
    least one whole token is there. The server has no rate limiter: a
    worker at the head of its loop, in its first iteration or after a
    yield, that is not cancelled and finds the deadline ahead and the
    running flag set sends its request at once. *)
Theorem requests_pass_the_gate_in_cli_only
    (a : Cli.Args) (t36 t101 t104 : Q) (sched : list (nat * Cli.Input))
    (s : Server.Sys) (id : nat) (tk : Server.Task) (tgt name : string)
    (stop_at t126 t97 : Q) :
  Server.loop s !! id = Some tk ->
  Server.at_pc tk = Server.WkYielded tgt stop_at \/
    Server.at_pc tk = Server.WkCreated tgt stop_at ->
  Server.cancel_requested tk = false ->
  t126 < stop_at ->
  Server.running (Server._state s) = true ->
  Cli.gated (Cli.main a t36 t101 t104 sched).1.2 = true /\
  (Server.task_step id (Server.Go t126 t97 name) s).2
    = [Server.EvSend (Server.build_request tgt name)].
Proof.
  intros Hid Hpc Hc Hlt Hrun. split.
  - destruct (main_cases a t36 t101 t104 sched)
      as [(_ & _ & -> & _) | (_ & _ & -> & _)]; [done|].
    apply exec_gated.
  - unfold Server.task_step. rewrite Hid.
    apply Qltb_true in Hlt.
    destruct Hpc as [-> | ->]; rewrite Hc;
      unfold Server.loop_worker_head; by rewrite Hlt, Hrun.
Qed.

(** A command-line run at a quarter of a request per second that sends
    one request, and a server worker back from its first request. *)
Lemma requests_pass_the_gate_in_cli_only_witness :
  let resp := mkResponse 200 (Some "ok"%string) "b'ok'" in
  let tgt := "http://x/api/search"%string in
  let d := Cli.mkDraw "n" 0 in
  let a := Cli.mkArgs tgt 1 60 (1 # 4) in
  let sched := [(0%nat, Cli.Resume 0 0 0 d); (0%nat, Cli.Wake 4 4 d)] in
  let s := (Server.exec [Server.PostStart 1 10 tgt 0;
                         Server.RunTask 0 (Server.Go 0 0 "");
                         Server.RunTask 1 (Server.Go 0 0 "n");
                         Server.RunTask 1 (Server.Reply (Returns resp) 0)]
              Server.sys0).1 in
  Cli.sent (Cli.main a 0 0 0 sched).1.2
    = [Cli.build_request tgt "n" 0] /\
  Cli.gated (Cli.main a 0 0 0 sched).1.2 = true /\
  (Server.task_step 1 (Server.Go 0 0 "m") s).2
    = [Server.EvSend (Server.build_request tgt "m")].
Proof.
  intros resp tgt d a sched s. split; [by vm_compute|].
  eapply (requests_pass_the_gate_in_cli_only a 0 0 0 sched s 1%nat);
    [reflexivity | by left | reflexivity | reflexivity | reflexivity].
Defined.

End BothShapes.

(** ** More on the command-line runner *)

Section CliMore.
Import Http Cli.

(** *** The deadline *)

Lemma worker_step_after_deadline
    (e t : Q) (i : Input) (r : Runner) (p : pc) :
  e <= t -> outside_one p = true ->
  monotone_from t (readings i) = true ->
  exists p', worker_step e i r p = (r, p', []) /\ outside_one p' = true.
Proof.
  intros He Hp Hmono.
  destruct p, i; try discriminate Hp; cbn [worker_step]; eauto;
    cbn [readings monotone_from] in Hmono;
    apply andb_true_iff in Hmono as [H96%Qle_bool_iff _];
    (assert (Qltb t96 e = false) as -> by (apply Qltb_false; lra));
    eauto.
Qed.

Lemma exec_after_deadline (sched : list (nat * Input)) (s : Sys) (t : Q) :
  end_time s <= t ->
  Forall (fun p => outside_one p = true) (tasks s) ->
  monotone_from t (clock_of sched) = true ->
  runner (exec sched s).1 = runner s /\ (exec sched s).2 = [].
Proof.
  revert s t. induction sched as [|[w i] sched IH]; intros s t He Hall Hmono;
    [done|].
  unfold clock_of in Hmono. cbn [flat_map snd] in Hmono.
  rewrite monotone_from_app in Hmono.
  apply andb_true_iff in Hmono as [Hi Hrest]. cbn [exec].
  assert (exists s1, sched_step s (w, i) = (s1, []) /\
                     runner s1 = runner s /\ end_time s1 = end_time s /\
                     Forall (fun p => outside_one p = true) (tasks s1))
    as (s1 & -> & Hr1 & He1 & Hall1).
  { destruct (tasks s !! w) as [p|] eqn:Hw.
    - rewrite (sched_step_unfold _ _ _ _ Hw).
      assert (outside_one p = true) as Hp
        by apply (proj1 (Forall_lookup _ _) Hall _ _ Hw).
      destruct (worker_step_after_deadline (end_time s) t i (runner s) p
                  He Hp Hi) as (p' & -> & Hp').
      eexists. split; [reflexivity|]. cbn. repeat split.
      by apply Forall_insert.
    - rewrite (sched_step_skip _ _ _ Hw). by exists s. }
  destruct (IH s1 (last_reading t (readings i))) as [Hr2 He2]; try done.
  { rewrite He1. eapply Qle_trans; [exact He|].
    by apply monotone_from_last. }
  destruct (exec sched s1) as [s2 e2]. cbn [fst snd] in *.
  subst e2. rewrite Hr2, Hr1. done.
Qed.

(** X3. Once the deadline has passed and no task is in the wait loop or
    awaiting a response, the run is over: with a clock that never runs
    backwards, whatever the event loop resumes sends no request, counts
    none, and leaves the runner as it is. *)
Theorem run_is_over_after_deadline
    (s : Sys) (t : Q) (sched : list (nat * Input)) :
  end_time s <= t ->
  Forall (fun p => outside_one p = true) (tasks s) ->
  monotone_from t (clock_of sched) = true ->
  runner (exec sched s).1 = runner s /\ (exec sched s).2 = [].
Proof. apply exec_after_deadline. Qed.

(** A one-second run at two requests per second: the worker is answered
    at 1, the deadline, and is resumed twice afterwards. *)
Lemma run_is_over_after_deadline_witness :
  let r := set_rps 2 (__init__ "http://x/api/search" 1 1 0) in
  let dr := mkDraw "n" 0 in
  let resp := mkResponse 200 (Some "ok"%string) "b'ok'" in
  let s := (exec [(0%nat, Resume 0 0 0 dr);
                  (0%nat, Wake (1 # 2) (1 # 2) dr);
                  (0%nat, Reply (Returns resp) 1)] (run 0 0 r)).1 in
  let sched := [(0%nat, Resume 1 1 1 dr); (0%nat, Resume 2 2 2 dr)] in
  total (runner s) = 1%Z /\
  runner (exec sched s).1 = runner s /\ (exec sched s).2 = [].
Proof.
  intros r dr resp s sched. split; [reflexivity|].
  apply (run_is_over_after_deadline s 1 sched).
  - by vm_compute.
  - repeat constructor.
  - reflexivity.
Defined.

(** X4. A run with a concurrency below 1, or with a duration of zero or
    less and a clock that never runs backwards, sends no request: the
    runner ends as [run] set it up and the report counts nothing. *)
Theorem degenerate_run_sends_nothing
    (r : Runner) (t101 t104 : Q) (sched : list (nat * Input)) :
  (concurrency r < 1)%Z \/
  ((duration r <= 0)%Z /\ monotone_from t101 (clock_of sched) = true) ->
  let out := exec sched (run t101 t104 r) in
  out.2 = [] /\ runner out.1 = set_bucket 0 t104 r /\
  total (runner out.1) = total r.
Proof.
  intros [Hc | [Hd Hmono]] out; subst out.
  - destruct (exec_invariant
                (fun s' => runner s' = runner (run t101 t104 r) /\
                           tasks s' = [])
                (fun evs => evs = [])) with sched (run t101 t104 r)
      as [[H1 _] H2]; try done.
    { by intros ?? -> ->. }
    { intros s' [w i] [Hr Ht]. rewrite sched_step_skip; [done|].
      by rewrite Ht. }
    { split; [done|]. cbn.
      by replace (Z.to_nat (concurrency r)) with 0%nat by lia. }
    rewrite H1, H2. by cbn.
  - destruct (exec_after_deadline sched (run t101 t104 r) t101) as [H1 H2];
      try done.
    + cbn. assert (inject_Z (duration r) <= 0) as Hq
        by (change 0 with (inject_Z 0); by rewrite <- Zle_Qle).
      lra.
    + apply run_tasks_created.
    + rewrite H1, H2. by cbn.
Qed.

(** [--duration 0] with three workers, each resumed once. *)
Lemma degenerate_run_sends_nothing_witness :
  let r := set_rps 5 (__init__ "http://x/api/search" 3 0 0) in
  let dr := mkDraw "n" 0 in
  let sched := [(0%nat, Resume 1 1 1 dr); (1%nat, Resume 1 1 1 dr);
                (2%nat, Resume 2 2 2 dr)] in
  let out := exec sched (run 1 1 r) in
  out.2 = [] /\ runner out.1 = set_bucket 0 1 r /\
  total (runner out.1) = total r.
Proof.
  intros r dr sched.
  apply (degenerate_run_sends_nothing r 1 1 sched).
  right. split; [cbn; lia | reflexivity].
Defined.

(** *** Requests sent and requests counted *)

Lemma in_flight_count_insert (l : list pc) (w : nat) (p p' : pc) :
  l !! w = Some p ->
  in_flight_count (<[w := p']> l)
    = (in_flight_count l - in_flight p + in_flight p')%Z.
Proof.
  revert w. induction l as [|q l IH]; intros [|w] Hw; try discriminate Hw.
  - injection Hw as ->. cbn. lia.
  - cbn in Hw.
    change (<[S w := p']> (q :: l)) with (q :: <[w := p']> l).
    change (in_flight_count (q :: <[w := p']> l))
      with (in_flight q + in_flight_count (<[w := p']> l))%Z.
    change (in_flight_count (q :: l))
      with (in_flight q + in_flight_count l)%Z.
    rewrite (IH w Hw). lia.
Qed.

Lemma worker_step_accounting (e : Q) (i : Input) (r : Runner) (p : pc) :
  let out := worker_step e i r p in
  let sent_now := Z.of_nat (length (sent out.2)) in
  (total out.1.1 + in_flight out.1.2
     <= total r + in_flight p + sent_now)%Z /\
  (if uncancelled i
   then (total out.1.1 + in_flight out.1.2
           = total r + in_flight p + sent_now)%Z
   else True).
Proof.
  destruct p, i; cbn [worker_step uncancelled];
    unfold _one_enter, _one_wake, _one_reply, gate;
    repeat case_match; cbn; split; try done; try lia; simplify_eq.
Qed.

Lemma sched_step_accounting (s : Sys) (wi : nat * Input) :
  let out := sched_step s wi in
  let sent_now := Z.of_nat (length (sent out.2)) in
  (total (runner out.1) + in_flight_count (tasks out.1)
     <= total (runner s) + in_flight_count (tasks s) + sent_now)%Z /\
  (if uncancelled wi.2
   then (total (runner out.1) + in_flight_count (tasks out.1)
           = total (runner s) + in_flight_count (tasks s) + sent_now)%Z
   else True).
Proof.
  destruct wi as [w i]. cbn [snd].
  destruct (tasks s !! w) as [p|] eqn:Hw.
  - rewrite (sched_step_unfold _ _ _ _ Hw).
    pose proof (worker_step_accounting (end_time s) i (runner s) p) as H.
    destruct (worker_step _ _ _ _) as [[r' p'] evs].
    cbn [fst snd runner tasks] in *.
    rewrite (in_flight_count_insert _ _ _ p' Hw).
    destruct H as [H1 H2]. split; [lia|]. destruct (uncancelled i); lia.
  - rewrite (sched_step_skip _ _ _ Hw). cbn. split; [lia|].
    destruct (uncancelled i); lia.
Qed.

(** X5. No request is counted that was not sent: after any schedule, the
    requests counted since the start of the run plus the requests still
    awaiting a response are at most the requests sent. *)
Theorem counted_requests_were_sent
    (r : Runner) (t101 t104 : Q) (sched : list (nat * Input)) :
  let out := exec sched (run t101 t104 r) in
  (total (runner out.1) - total r + in_flight_count (tasks out.1)
     <= Z.of_nat (length (sent out.2)))%Z.
Proof.
  cbv zeta.
  assert (in_flight_count (tasks (run t101 t104 r)) = 0%Z) as H0.
  { cbn. induction (Z.to_nat (concurrency r)) as [|n IH]; [done|].
    cbn. cbn in IH. by rewrite IH. }
  assert (forall sched s,
            (total (runner (exec sched s).1)
               + in_flight_count (tasks (exec sched s).1)
             <= total (runner s) + in_flight_count (tasks s)
                + Z.of_nat (length (sent (exec sched s).2)))%Z) as Hall.
  { clear. induction sched as [|wi sched IH]; intros s; cbn [exec].
    - cbn. lia.
    - pose proof (sched_step_accounting s wi) as [H1 _].
      destruct (sched_step s wi) as [s1 e1]. specialize (IH s1).
      destruct (exec sched s1) as [s2 e2]. cbn [fst snd] in *.
      rewrite sent_app, length_app. lia. }
  specialize (Hall sched (run t101 t104 r)). rewrite H0 in Hall.
  change (total (runner (run t101 t104 r))) with (total r) in Hall. lia.
Qed.

(** X6. Every request is counted exactly once. Along a schedule in which
    nothing is cancelled, the requests counted plus the requests awaiting
    a response grow by exactly the number of requests sent. *)
Theorem requests_are_counted_once
    (sched : list (nat * Input)) (s : Sys) :
  forallb (fun wi => uncancelled wi.2) sched = true ->
  let out := exec sched s in
  (total (runner out.1) + in_flight_count (tasks out.1)
     = total (runner s) + in_flight_count (tasks s)
       + Z.of_nat (length (sent out.2)))%Z.
Proof.
  revert s. induction sched as [|wi sched IH]; intros s Hun; cbn [exec].
  - cbn. lia.
  - cbn [forallb] in Hun. apply andb_true_iff in Hun as [Hwi Hun].
    pose proof (sched_step_accounting s wi) as [_ H1]. rewrite Hwi in H1.
    destruct (sched_step s wi) as [s1 e1]. specialize (IH s1 Hun).
    destruct (exec sched s1) as [s2 e2]. cbn [fst snd] in *.
    rewrite sent_app, length_app. lia.
Qed.

(** Two workers at four requests per second: both requests leave at 1,
    one is answered with a 500, the other is still awaited. *)
Lemma requests_are_counted_once_witness :
  let r := set_rps 4 (__init__ "http://x/api/search" 2 10 0) in
  let dr := mkDraw "n" 0 in
  let resp := mkResponse 500 (Some "oops"%string) "b'oops'" in
  let sched := [(0%nat, Resume 0 0 0 dr); (1%nat, Resume 0 0 0 dr);
                (0%nat, Wake 1 1 dr); (1%nat, Wake 1 1 dr);
                (1%nat, Reply (Returns resp) 2)] in
  let out := exec sched (run 0 0 r) in
  (total (runner out.1) = 1 /\ in_flight_count (tasks out.1) = 1 /\
   Z.of_nat (length (sent out.2)) = 2)%Z /\
  (total (runner out.1) + in_flight_count (tasks out.1)
     = total (runner (run 0 0 r)) + in_flight_count (tasks (run 0 0 r))
       + Z.of_nat (length (sent out.2)))%Z.
Proof.
  intros r dr resp sched. split; [by vm_compute|].
  apply (requests_are_counted_once sched (run 0 0 r)). reflexivity.
Defined.

(** *** Counters over time *)

Lemma worker_step_grows (e : Q) (i : Input) (r : Runner) (p : pc) :
  let out := worker_step e i r p in
  (total r <= total out.1.1)%Z /\ (success r <= success out.1.1)%Z /\
  (failure r <= failure out.1.1)%Z.
Proof.
  destruct p, i; cbn [worker_step];
    unfold _one_enter, _one_wake, _one_reply, gate, record_response,
      record_exception;
    repeat case_match; cbn; lia.
Qed.

Lemma exec_grows (sched : list (nat * Input)) (s : Sys) :
  let r' := runner (exec sched s).1 in
  (total (runner s) <= total r')%Z /\ (success (runner s) <= success r')%Z /\
  (failure (runner s) <= failure r')%Z.
Proof.
  revert s. induction sched as [|[w i] sched IH]; intros s; cbn [exec].
  - cbn. lia.
  - assert (let s1 := (sched_step s (w, i)).1 in
            (total (runner s) <= total (runner s1))%Z /\
            (success (runner s) <= success (runner s1))%Z /\
            (failure (runner s) <= failure (runner s1))%Z) as Hstep.
    { destruct (tasks s !! w) as [p|] eqn:Hw.
      - rewrite (sched_step_unfold _ _ _ _ Hw).
        pose proof (worker_step_grows (end_time s) i (runner s) p) as H.
        by destruct (worker_step _ _ _ _) as [[r' p'] evs].
      - rewrite (sched_step_skip _ _ _ Hw). cbn. lia. }
    destruct (sched_step s (w, i)) as [s1 e1]. cbn [fst] in Hstep.
    specialize (IH s1). destruct (exec sched s1) as [s2 e2].
    cbn [fst] in *. lia.
Qed.

(** X7. The counters never go down: between any two points of any
    schedule, run from any state, the total, the successes and the
    failures of the later point are at least those of the earlier one. *)
Theorem counters_never_decrease
    (before after : list (nat * Input)) (s : Sys) :
  let r1 := runner (exec before s).1 in
  let r2 := runner (exec (before ++ after) s).1 in
  (total r1 <= total r2)%Z /\ (success r1 <= success r2)%Z /\
  (failure r1 <= failure r2)%Z.
Proof.
  cbv zeta. rewrite exec_app.
  pose proof (exec_grows after (exec before s).1) as H.
  destruct (exec before s) as [s1 e1]. cbn [fst] in *.
  by destruct (exec after s1) as [s2 e2].
Qed.

(** *** What is printed *)

(** X8. The average of the report of the runner [main] ends with, which
    is the report it prints, is absent exactly when no request was
    counted, and is otherwise the cumulative latency divided by the
    total; the total of that report is never negative. *)
Theorem report_average
    (a : Args) (t36 t101 t104 : Q) (sched : list (nat * Input)) :
  let out := main a t36 t101 t104 sched in
  let rep := report (runner out.1.1) in
  (0 <= rep_total rep)%Z /\
  rep_avg rep
    = (if (rep_total rep =? 0)%Z then None
       else Some (total_time (runner out.1.1) / inject_Z (rep_total rep))) /\
  reports a out.2 rep.
Proof.
  cbv zeta.
  pose proof (main_reports a t36 t101 t104 sched) as Hrep. cbv zeta in Hrep.
  set (r := set_rps (arg_rps a)
              (__init__ (arg_target a) (arg_concurrency a) (arg_duration a)
                        t36)).
  assert (0 <= total (runner (main a t36 t101 t104 sched).1.1))%Z as Hpos.
  { destruct (main_cases a t36 t101 t104 sched)
      as [(_ & -> & _) | (_ & -> & _)]; [done|]. fold r.
    pose proof (exec_grows sched (run t101 t104 r)) as (H & _).
    cbn [run runner] in H. exact H. }
  destruct (main a t36 t101 t104 sched) as [[s evs] o].
  cbn [fst snd report rep_total rep_avg] in *.
  repeat split; [done | | done].
  destruct (Z.eqb_spec (total (runner s)) 0) as [->|Hne]; [done|].
  assert ((0 <? total (runner s))%Z = true) as -> by (apply Z.ltb_lt; lia).
  done.
Qed.

Lemma replace_newlines_single_line (s : string) :
  has_newline (replace_newlines s) = false.
Proof.
  induction s as [|c s IH]; [done|]. cbn. rewrite IH, orb_false_r.
  destruct (Ascii.eqb c "010") eqn:Hc; [done | exact Hc].
Qed.

Lemma take_chars_single_line (n : nat) (s : string) :
  has_newline s = false -> has_newline (take_chars n s) = false.
Proof.
  unfold take_chars. revert s.
  induction n as [|n IH]; intros [|c s] H; cbn in *; try done.
  apply orb_false_iff in H as [-> H]. by rewrite (IH s H).
Qed.

(** X9. What [reporter] and [Runner.report] print of the last response
    body fits on one line: the snippet of the progress line has no
    newline and at most 120 characters, the snippet of the final report
    has no newline and at most 1000 characters, and the final report
    shows the status code as it was recorded. *)
Theorem printed_snippets_are_single_line (t118 : Q) (s : Sys) :
  has_newline (line_body (reporter_line t118 s)) = false /\
  (String.length (line_body (reporter_line t118 s)) <= 120)%nat /\
  match body_snip (runner s), last_response (runner s) with
  | Some (code, snip), Some (code', _) =>
      code = code' /\ has_newline snip = false /\
      (String.length snip <= 1000)%nat
  | None, None => True
  | _, _ => False
  end.
Proof.
  unfold reporter_line, body_snip. cbn [line_body].
  destruct (last_response (runner s)) as [[code body]|];
    [|cbn; repeat split; lia].
  repeat split.
  - destruct (body =? "")%string; [done|].
    apply take_chars_single_line, replace_newlines_single_line.
  - destruct (body =? "")%string; [cbn; lia | apply take_chars_length].
  - apply take_chars_single_line, replace_newlines_single_line.
  - apply take_chars_length.
Qed.

End CliMore.

(** ** More on the control API *)

Section ServerMore.
Import Http Server.

(** *** Cancelling tasks *)

Lemma cancel_cancel (t : Task) : cancel (cancel t) = cancel t.
Proof.
  unfold cancel. destruct (done t) eqn:Hd; [by rewrite Hd|].
  assert (done {| at_pc := at_pc t; cancel_requested := true |} = false)
    as -> by exact Hd.
  done.
Qed.

Lemma cancel_stopped (t : Task) : stopped (cancel t).
Proof.
  unfold stopped, cancel. destruct (done t) eqn:Hd; [by left | by right].
Qed.

Lemma stopped_cancel (t : Task) : stopped t -> stopped (cancel t).
Proof. intros _. apply cancel_stopped. Qed.

Lemma cancel_all_lookup (ids : list nat) (l : list Task) (id : nat) :
  cancel_all ids l !! id
    = if existsb (Nat.eqb id) ids then cancel <$> (l !! id) else l !! id.
Proof.
  unfold cancel_all. revert l.
  induction ids as [|a ids IH]; intros l; cbn [fold_left existsb]; [done|].
  rewrite IH. clear IH.
  destruct (Nat.eqb_spec id a) as [->|Hne]; cbn [orb].
  - destruct (l !! a) as [t|] eqn:Ha.
    + rewrite list_lookup_insert_eq by (by eapply lookup_lt_Some).
      cbn. rewrite cancel_cancel. by destruct (existsb _ ids).
    + rewrite Ha. by destruct (existsb _ ids).
  - destruct (l !! a) as [t|] eqn:Ha; [|done].
    by rewrite list_lookup_insert_ne.
Qed.

Lemma cancel_all_listed (ids : list nat) (l : list Task) (id : nat)
    (t : Task) :
  In id ids -> l !! id = Some t -> cancel_all ids l !! id = Some (cancel t).
Proof.
  intros Hin Hl. rewrite cancel_all_lookup, Hl.
  assert (existsb (Nat.eqb id) ids = true) as ->; [|done].
  apply existsb_exists. exists id. split; [done | apply Nat.eqb_refl].
Qed.

Lemma cancel_all_unlisted (ids : list nat) (l : list Task) (id : nat) :
  ~ In id ids -> cancel_all ids l !! id = l !! id.
Proof.
  intros Hin. rewrite cancel_all_lookup.
  destruct (existsb (Nat.eqb id) ids) eqn:He; [|done].
  apply existsb_exists in He as (x & Hx & ->%Nat.eqb_eq). done.
Qed.

Lemma cancel_all_stopped (ids : list nat) (l : list Task) (id : nat)
    (t : Task) :
  cancel_all ids l !! id = Some t ->
  exists t0, l !! id = Some t0 /\ at_pc t = at_pc t0 /\
             (stopped t0 \/ In id ids -> stopped t).
Proof.
  rewrite cancel_all_lookup. destruct (existsb (Nat.eqb id) ids) eqn:He.
  - destruct (l !! id) as [t0|]; [|done]. cbn. intros [= <-].
    exists t0. repeat split.
    + unfold cancel. by destruct (done t0).
    + intros _. apply cancel_stopped.
  - intros Hl. exists t. repeat split; [done|]. intros [H|H]; [done|].
    assert (existsb (Nat.eqb id) ids = true) as He'; [|congruence].
    apply existsb_exists. exists id. split; [done | apply Nat.eqb_refl].
Qed.

(** X10. An accepted /stop answers "stopped", clears the running flag,
    records the end time, empties [_tasks] and leaves the counters and
    the last response as they are. Every task that [_tasks] listed is
    afterwards done or cancelled, its coroutine where it was, and every
    other task of the event loop is untouched. *)
Theorem stop_cancels_listed_tasks (t165 : Q) (s : Sys) :
  running (_state s) = true ->
  let out := stop_test t165 s in
  out.2 = mkApi 200 (JStatus "stopped") /\
  _state out.1 = set_running false (Some t165) (_state s) /\
  _tasks out.1 = [] /\
  length (loop out.1) = length (loop s) /\
  (forall id t, In id (_tasks s) -> loop s !! id = Some t ->
     loop out.1 !! id = Some (cancel t) /\ stopped (cancel t) /\
     at_pc (cancel t) = at_pc t) /\
  (forall id, ~ In id (_tasks s) -> loop out.1 !! id = loop s !! id).
Proof.
  intros Hrun. unfold stop_test. rewrite Hrun. cbn.
  repeat split.
  - apply cancel_all_length.
  - by apply cancel_all_listed.
  - apply cancel_stopped.
  - unfold cancel. by destruct (done t).
  - intros id Hid. by apply cancel_all_unlisted.
Qed.

(** /stop on a run of two workers, one of them awaiting a response. *)
Lemma stop_cancels_listed_tasks_witness :
  let tgt := "http://x/api/search"%string in
  let s := (exec [PostStart 2 10 tgt 0; RunTask 0 (Go 0 0 "");
                  RunTask 1 (Go 0 0 "n")] sys0).1 in
  let out := stop_test (1 # 2) s in
  _tasks s = [0; 1; 2]%nat /\
  out.2 = mkApi 200 (JStatus "stopped") /\
  _state out.1 = set_running false (Some (1 # 2)) (_state s) /\
  _tasks out.1 = [] /\
  length (loop out.1) = length (loop s) /\
  (forall id t, In id (_tasks s) -> loop s !! id = Some t ->
     loop out.1 !! id = Some (cancel t) /\ stopped (cancel t) /\
     at_pc (cancel t) = at_pc t) /\
  (forall id, ~ In id (_tasks s) -> loop out.1 !! id = loop s !! id).
Proof.
  intros tgt s. split; [reflexivity|].
  apply (stop_cancels_listed_tasks (1 # 2) s). reflexivity.
Defined.

(** *** Every live task is listed *)

Lemma set_pc_lookup (id : nat) (p : pc) (l : list Task) (id' : nat) :
  set_pc id p l !! id'
    = if (id' =? id)%nat
      then (fun t => mkTask p (cancel_requested t)) <$> (l !! id)
      else l !! id'.
Proof.
  unfold set_pc. destruct (Nat.eqb_spec id' id) as [->|Hne].
  - destruct (l !! id) as [t|] eqn:Hid; [|by rewrite Hid].
    by rewrite list_lookup_insert_eq by (by eapply lookup_lt_Some).
  - destruct (l !! id) as [t|]; [|done]. by rewrite list_lookup_insert_ne.
Qed.

Lemma set_pc_length (id : nat) (p : pc) (l : list Task) :
  length (set_pc id p l) = length l.
Proof. unfold set_pc. destruct (l !! id); [by rewrite length_insert|done]. Qed.

Lemma tracked_update (st' : State) (ts' : list nat) (l0 : list Task)
    (id : nat) (p : pc) (tk : Task) :
  (forall id' t, l0 !! id' = Some t -> stopped t \/ In id' ts') ->
  Forall (fun id' => (id' < length l0)%nat) ts' ->
  l0 !! id = Some tk ->
  done (mkTask p false) = true \/
    (cancel_requested tk = false /\ done tk = false) ->
  tracked {| _state := st'; _tasks := ts'; loop := set_pc id p l0 |}.
Proof.
  intros Hall Hlen Hid Hp. split; cbn [loop _tasks].
  - intros id' t. rewrite set_pc_lookup.
    destruct (Nat.eqb_spec id' id) as [->|Hne]; [|apply Hall].
    rewrite Hid. cbn. intros [= <-].
    destruct Hp as [Hp | [Hc Hd]]; [by left; left|].
    destruct (Hall id tk Hid) as [[H|H]|H]; [congruence|congruence|by right].
  - by rewrite set_pc_length.
Qed.

Lemma start_test_tracked (c d : Z) (tgt : string) (t : Q) (s : Sys) :
  tracked s -> tracked (start_test c d tgt t s).1.
Proof.
  intros [Hall Hlen]. unfold start_test.
  destruct (running (_state s)); [by split|]. split; cbn [fst loop _tasks].
  - intros id tk Hid.
    apply lookup_app_Some in Hid as [Hl | [Hge Hnew]].
    + destruct (cancel_all_stopped _ _ _ _ Hl) as (t0 & H0 & _ & Hs).
      left. apply Hs. by apply Hall.
    + right. left.
      apply list_lookup_singleton_Some in Hnew as [Hz _]. lia.
  - repeat constructor. rewrite length_app. cbn. lia.
Qed.

Lemma stop_test_tracked (t : Q) (s : Sys) :
  tracked s -> tracked (stop_test t s).1.
Proof.
  intros [Hall Hlen]. unfold stop_test.
  destruct (running (_state s)); [|by split]. split; cbn [fst loop _tasks].
  - intros id tk Hl.
    destruct (cancel_all_stopped _ _ _ _ Hl) as (t0 & H0 & _ & Hs).
    left. apply Hs. by apply Hall.
  - constructor.
Qed.

Lemma stop_test_halted (t : Q) (s : Sys) :
  tracked s -> running (_state s) = true -> halted (stop_test t s).1.
Proof.
  intros [Hall Hlen] Hrun. unfold stop_test. rewrite Hrun.
  split; cbn [fst loop _state set_running running]; [done|].
  intros id tk Hl.
  destruct (cancel_all_stopped _ _ _ _ Hl) as (t0 & H0 & _ & Hs).
  apply Hs. by apply Hall.
Qed.

Lemma task_step_tracked (id : nat) (i : TaskInput) (s : Sys) :
  tracked s -> tracked (task_step id i s).1.
Proof.
  intros Htr. pose proof Htr as [Hall Hlen]. unfold task_step.
  destruct (loop s !! id) as [tk|] eqn:Hid; [|done].
  destruct (at_pc tk) eqn:Hpc, i; try done; cbn [fst].
  - (* _run_load, first segment *)
    destruct (cancel_requested tk) eqn:Hc; cbn [fst].
    { eapply tracked_update; eauto. }
    unfold _run_load_start.
    destruct (concurrency <? 0)%Z; [eapply tracked_update; eauto|].
    set (n := Z.to_nat concurrency).
    set (wk := {| at_pc := WkCreated target (t1 + inject_Z duration);
                  cancel_requested := false |}).
    assert (forall id' t,
              (loop s ++ replicate n wk) !! id' = Some t ->
              stopped t \/ In id' (_tasks s ++ seq (length (loop s)) n))
      as Hall'.
    { intros id' t Hl. apply lookup_app_Some in Hl as [Hl | [Hge Hl]].
      - destruct (Hall id' t Hl); [by left|].
        right. apply in_or_app. by left.
      - right. apply in_or_app. right.
        apply lookup_replicate in Hl as [_ Hlt]. apply in_seq. lia. }
    assert (Forall (fun id' => (id' < length (loop s ++ replicate n wk))%nat)
              (_tasks s ++ seq (length (loop s)) n)) as Hlen'.
    { rewrite length_app, length_replicate. apply Forall_app. split.
      - eapply Forall_impl; [exact Hlen|]. cbn. lia.
      - apply Forall_forall. intros x Hx%list_elem_of_In%in_seq. lia. }
    assert ((loop s ++ replicate n wk) !! id = Some tk) as Hid'
      by (by apply lookup_app_l_Some).
    destruct (n =? 0)%nat; eapply tracked_update; eauto.
    right. split; [done|]. unfold done. by rewrite Hpc.
  - (* _run_load at the gather *)
    unfold _run_load_gather.
    assert (forall id' t,
              cancel_all workers (loop s) !! id' = Some t ->
              stopped t \/ In id' (_tasks s)) as Hall'.
    { intros id' t Hl.
      destruct (cancel_all_stopped _ _ _ _ Hl) as (t0 & H0 & _ & Hs).
      destruct (Hall id' t0 H0) as [H|H]; [|by right].
      left. apply Hs. by left. }
    assert (exists tk', cancel_all workers (loop s) !! id = Some tk')
      as [tk' Hid'].
    { rewrite cancel_all_lookup, Hid. destruct (existsb _ _); by eexists. }
    repeat case_match; try done; eapply tracked_update; eauto.
    by rewrite cancel_all_length.
  - (* loop_worker, created *)
    destruct (cancel_requested tk) eqn:Hc; cbn [fst].
    { eapply tracked_update; eauto. }
    unfold loop_worker_head. case_match; cbn [fst];
      eapply tracked_update; eauto.
    right. split; [done|]. unfold done. by rewrite Hpc.
  - (* _worker awaiting the response *)
    destruct (cancel_requested tk) eqn:Hc.
    + unfold _worker_reply. cbn. eapply tracked_update; eauto.
    + unfold _worker_reply. repeat case_match; cbn [fst];
        eapply tracked_update; eauto;
        right; (split; [done|]); unfold done; by rewrite Hpc.
  - (* loop_worker after its yield *)
    destruct (cancel_requested tk) eqn:Hc; cbn [fst].
    { eapply tracked_update; eauto. }
    unfold loop_worker_head. case_match; cbn [fst];
      eapply tracked_update; eauto.
    right. split; [done|]. unfold done. by rewrite Hpc.
Qed.

(** X11. In every state the process can reach from its start, each task
    of the event loop that can still act (not done, not cancelled) is
    listed in [_tasks], and [_tasks] lists tasks of the event loop only:
    /start and /stop, which cancel what [_tasks] lists, miss no live
    task. *)
Theorem live_tasks_are_listed (sched : list Input) :
  tracked (exec sched sys0).1.
Proof.
  destruct (srv_exec_invariant tracked (fun _ => True)) with sched sys0
    as [H _]; try done.
  - intros s i Hs. split; [|done]. destruct i as [c d tgt t|t|t|id i].
    + cbn [step]. pose proof (start_test_tracked c d tgt t s Hs).
      by destruct (start_test c d tgt t s).
    + cbn [step]. pose proof (stop_test_tracked t s Hs).
      by destruct (stop_test t s).
    + done.
    + by apply task_step_tracked.
Qed.

(** *** After a stop *)

Lemma task_step_halted (id : nat) (i : TaskInput) (s : Sys) :
  halted s ->
  halted (task_step id i s).1 /\ (task_step id i s).2 = [] /\
  stats (_state (task_step id i s).1) = stats (_state s).
Proof.
  intros [Hrun Hall]. unfold task_step.
  destruct (loop s !! id) as [tk|] eqn:Hid; [|done].
  assert (forall st' p l0,
            running st' = false ->
            (forall id' t, l0 !! id' = Some t -> stopped t) ->
            (l0 !! id = Some tk \/ l0 !! id = Some (cancel tk)) ->
            cancel_requested tk = true ->
            halted {| _state := st'; _tasks := _tasks s;
                      loop := set_pc id p l0 |}) as Hupd.
  { intros st' p l0 Hst Hl0 Hid0 Hc. split; [done|]. cbn [loop].
    intros id' t. rewrite set_pc_lookup.
    destruct (Nat.eqb_spec id' id) as [->|Hne]; [|apply Hl0].
    destruct Hid0 as [-> | ->]; cbn; intros [= <-]; right; cbn; [done|].
    unfold cancel. by destruct (done tk). }
  assert (forall ws id' t,
            cancel_all ws (loop s) !! id' = Some t -> stopped t) as Hcan.
  { intros ws id' t Hl.
    destruct (cancel_all_stopped _ _ _ _ Hl) as (t0 & H0 & _ & Hs).
    apply Hs. left. by eapply Hall. }
  destruct (Hall id tk Hid) as [Hd | Hc].
  { unfold done in Hd. by destruct (at_pc tk), i. }
  rewrite Hc.
  destruct (at_pc tk) eqn:Hpc, i; try done; cbn [fst snd].
  - eapply Hupd in Hc as H; [repeat split; apply H | done | done | by left].
  - unfold _run_load_gather. cbn [orb fst snd].
    split; [|done]. split; [done|].
    cbn [loop]. intros id' t. rewrite set_pc_lookup.
    destruct (Nat.eqb_spec id' id) as [->|Hne]; [|apply Hcan].
    rewrite cancel_all_lookup, Hid.
    destruct (existsb _ _); cbn; intros [= <-]; right; cbn; [|done].
    unfold cancel. by destruct (done tk).
  - eapply Hupd in Hc as H; [repeat split; apply H | done | done | by left].
  - unfold _worker_reply. cbn [is_Exception fst snd _state].
    eapply Hupd in Hc as H; [repeat split; apply H | done | done | by left].
  - eapply Hupd in Hc as H; [repeat split; apply H | done | done | by left].
Qed.

Lemma targets_cons_nil (i : Input) (sched : list Input) :
  targets (i :: sched) = [] ->
  targets sched = [] /\
  match i with PostStart _ _ _ _ => False | _ => True end.
Proof. unfold targets. destruct i; cbn; try done. Qed.

Lemma recorded_app (a b : list Event) :
  recorded (a ++ b) = recorded a ++ recorded b.
Proof. unfold recorded. by rewrite flat_map_app. Qed.

Lemma exec_halted (sched : list Input) (s : Sys) :
  halted s -> targets sched = [] ->
  halted (exec sched s).1 /\
  sent (exec sched s).2 = [] /\ recorded (exec sched s).2 = [] /\
  stats (_state (exec sched s).1) = stats (_state s).
Proof.
  revert s. induction sched as [|i sched IH]; intros s Hs Ht; [done|].
  apply targets_cons_nil in Ht as [Ht Hi]. cbn [exec].
  assert (halted (step s i).1 /\ sent (step s i).2 = [] /\
          recorded (step s i).2 = [] /\
          stats (_state (step s i).1) = stats (_state s))
    as (Hs1 & Hsent & Hrec & Hst).
  { destruct i as [c d tgt t|t|t|id i]; [done| | |].
    - cbn [step]. unfold stop_test. destruct Hs as [Hrun Hall].
      by rewrite Hrun.
    - done.
    - cbn [step]. destruct (task_step_halted id i s Hs) as (H1 & -> & H3).
      done. }
  destruct (step s i) as [s1 e1]. cbn [fst snd] in *.
  destruct (IH s1 Hs1 Ht) as (H1 & H2 & H3 & H4).
  destruct (exec sched s1) as [s2 e2]. cbn [fst snd] in *.
  rewrite sent_app_srv, recorded_app, Hsent, Hrec, H2, H3, H4, Hst. done.
Qed.

(** X12. After an accepted /stop, and until the next /start, the
    statistics are frozen: whatever the event loop resumes, no request is
    sent, none is recorded, the counters, the cumulative latency and the
    last response stay as they were when /stop was called, and the
    running flag stays cleared. *)
Theorem stats_are_frozen_after_stop
    (before after : list Input) (t165 : Q) :
  running (_state (exec before sys0).1) = true ->
  targets after = [] ->
  let s := (exec before sys0).1 in
  let out := exec after (stop_test t165 s).1 in
  sent out.2 = [] /\ recorded out.2 = [] /\
  stats (_state out.1) = stats (_state s) /\
  running (_state out.1) = false.
Proof.
  intros Hrun Hafter s out.
  assert (halted (stop_test t165 s).1) as Hh
    by (apply stop_test_halted; [apply live_tasks_are_listed | done]).
  destruct (exec_halted after _ Hh Hafter) as ([H0 _] & H1 & H2 & H3).
  repeat split; try done. subst out. rewrite H3.
  unfold stop_test. subst s. by rewrite Hrun.
Qed.

(** A run of two workers is stopped while one request is in flight; the
    answer that was on its way, the other worker and the controller are
    resumed afterwards. *)
Lemma stats_are_frozen_after_stop_witness :
  let resp := mkResponse 200 (Some "ok"%string) "b'ok'" in
  let tgt := "http://x/api/search"%string in
  let before := [PostStart 2 10 tgt 0; RunTask 0 (Go 0 0 "");
                 RunTask 1 (Go 0 0 "n");
                 RunTask 1 (Reply (Returns resp) (1 # 4));
                 RunTask 1 (Go (1 # 4) (1 # 4) "m")] in
  let after := [RunTask 1 (Reply (Returns resp) 1);
                RunTask 2 (Go 1 1 "k"); RunTask 0 (Go 1 1 "");
                GetStatus 2; PostStop 2] in
  let s := (exec before sys0).1 in
  let out := exec after (stop_test (1 # 2) s).1 in
  total_requests (_state s) = 1%Z /\
  sent out.2 = [] /\ recorded out.2 = [] /\
  stats (_state out.1) = stats (_state s) /\
  running (_state out.1) = false.
Proof.
  intros resp tgt before after. split; [reflexivity|].
  apply (stats_are_frozen_after_stop before after (1 # 2)); reflexivity.
Defined.

(** *** While no run is in progress *)

Lemma task_step_not_running (id : nat) (i : TaskInput) (s : Sys) :
  running (_state s) = false ->
  running (_state (task_step id i s).1) = false /\
  sent (task_step id i s).2 = [].
Proof.
  intros Hrun. unfold task_step.
  destruct (loop s !! id) as [tk|]; [|done].
  destruct (at_pc tk), i; try done;
    unfold _run_load_start, _run_load_gather, loop_worker_head,
      _worker_reply;
    rewrite ?Hrun, ?andb_false_r; repeat case_match; cbn; done.
Qed.

(** X13. While the running flag is cleared and no /start is accepted, no
    worker sends a request, and the flag stays cleared. *)
Theorem no_request_while_not_running (sched : list Input) (s : Sys) :
  running (_state s) = false ->
  targets sched = [] ->
  sent (exec sched s).2 = [] /\ running (_state (exec sched s).1) = false.
Proof.
  revert s. induction sched as [|i sched IH]; intros s Hrun Ht; [done|].
  apply targets_cons_nil in Ht as [Ht Hi]. cbn [exec].
  assert (running (_state (step s i).1) = false /\ sent (step s i).2 = [])
    as [Hrun1 Hsent].
  { destruct i as [c d tgt t|t|t|id i]; [done| | |].
    - cbn [step]. unfold stop_test. by rewrite Hrun.
    - done.
    - by apply task_step_not_running. }
  destruct (step s i) as [s1 e1]. cbn [fst snd] in *.
  destruct (IH s1 Hrun1 Ht) as [H1 H2].
  destruct (exec sched s1) as [s2 e2]. cbn [fst snd] in *.
  by rewrite sent_app_srv, Hsent, H1.
Qed.

(** A run of one worker whose deadline passes: the controller ends the
    run by itself; afterwards the worker is resumed once more, /status is
    asked and /stop is refused. *)
Lemma no_request_while_not_running_witness :
  let resp := mkResponse 200 (Some "ok"%string) "b'ok'" in
  let tgt := "http://x/api/search"%string in
  let s := (exec [PostStart 1 1 tgt 0; RunTask 0 (Go 0 0 "");
                  RunTask 1 (Go 0 0 "n");
                  RunTask 1 (Reply (Returns resp) 1);
                  RunTask 1 (Go 1 1 "m"); RunTask 0 (Go 1 1 "")]
             sys0).1 in
  let sched := [RunTask 1 (Go 2 2 "k"); GetStatus 2; PostStop 3] in
  (total_requests (_state s) = 1%Z /\ end_time (_state s) = Some 1) /\
  sent (exec sched s).2 = [] /\ running (_state (exec sched s).1) = false.
Proof.
  intros resp tgt s sched. split; [by vm_compute|].
  apply (no_request_while_not_running sched s); reflexivity.
Defined.

(** *** Counters and the status answer *)

Lemma task_step_counters (id : nat) (i : TaskInput) (s : Sys) :
  let st' := _state (task_step id i s).1 in
  (total_requests (_state s) <= total_requests st')%Z /\
  (success (_state s) <= success st')%Z /\
  (failure (_state s) <= failure st')%Z.
Proof.
  unfold task_step. destruct (loop s !! id) as [tk|]; [|cbn; lia].
  destruct (at_pc tk), i; try (cbn; lia);
    unfold _run_load_start, _run_load_gather, loop_worker_head,
      _worker_reply, record_response, record_exception;
    repeat case_match; cbn; lia.
Qed.

(** X14. Between two /start calls the counters of the server never go
    down: along any sequence of task segments, /status and /stop calls,
    the total, the successes and the failures never decrease. *)
Theorem server_counters_never_decrease (sched : list Input) (s : Sys) :
  targets sched = [] ->
  let st' := _state (exec sched s).1 in
  (total_requests (_state s) <= total_requests st')%Z /\
  (success (_state s) <= success st')%Z /\
  (failure (_state s) <= failure st')%Z.
Proof.
  revert s. induction sched as [|i sched IH]; intros s Ht; [cbn; lia|].
  apply targets_cons_nil in Ht as [Ht Hi]. cbn [exec].
  assert (let st1 := _state (step s i).1 in
          (total_requests (_state s) <= total_requests st1)%Z /\
          (success (_state s) <= success st1)%Z /\
          (failure (_state s) <= failure st1)%Z) as Hstep.
  { destruct i as [c d tgt t|t|t|id i]; [done| | |].
    - cbn [step]. unfold stop_test.
      destruct (running (_state s)); cbn; lia.
    - cbn. lia.
    - apply task_step_counters. }
  destruct (step s i) as [s1 e1]. cbn [fst] in Hstep.
  specialize (IH s1 Ht).
  destruct (exec sched s1) as [s2 e2]. cbn [fst] in *. lia.
Qed.

(** A 503, a refused connection and a /stop. *)
Lemma server_counters_never_decrease_witness :
  let resp := mkResponse 503 (Some "busy"%string) "b'busy'" in
  let tgt := "http://x/api/search"%string in
  let s := (exec [PostStart 1 10 tgt 0; RunTask 0 (Go 0 0 "");
                  RunTask 1 (Go 0 0 "n")] sys0).1 in
  let sched := [RunTask 1 (Reply (Returns resp) 1);
                RunTask 1 (Go 1 1 "m");
                RunTask 1 (Reply (Raises (ConnectError "refused")) 2);
                PostStop 3] in
  let st' := _state (exec sched s).1 in
  (total_requests st' = 2 /\ failure st' = 2)%Z /\
  (total_requests (_state s) <= total_requests st')%Z /\
  (success (_state s) <= success st')%Z /\
  (failure (_state s) <= failure st')%Z.
Proof.
  intros resp tgt s sched. split; [by vm_compute|].
  apply (server_counters_never_decrease sched s). reflexivity.
Defined.

(** X15. What /status answers in any state the process can reach: the
    total is never negative, and the average response time is absent
    exactly when the total is zero and is otherwise the cumulative
    latency divided by the total. *)
Theorem status_average (sched : list Input) (t76 : Q) :
  let s := (exec sched sys0).1 in
  let snap := status t76 s in
  (0 <= snap_total_requests snap)%Z /\
  snap_average_response_time snap
    = if (snap_total_requests snap =? 0)%Z then None
      else Some (total_time (_state s)
                 / inject_Z (snap_total_requests snap)).
Proof.
  cbv zeta.
  destruct (srv_exec_invariant
              (fun s => (0 <= total_requests (_state s))%Z) (fun _ => True))
    with sched sys0 as [Hpos _]; try done.
  { intros s i Hs. split; [|done]. destruct i as [c d tgt t|t|t|id i].
    - cbn [step]. unfold start_test. by destruct (running (_state s)).
    - cbn [step]. unfold stop_test. by destruct (running (_state s)).
    - done.
    - pose proof (task_step_counters id i s). cbn [step]. cbn zeta in *.
      lia. }
  split; [done|]. unfold status. cbn.
  destruct (Z.eqb_spec (total_requests (_state (exec sched sys0).1)) 0)
    as [->|Hne]; [done|].
  assert ((0 <? total_requests (_state (exec sched sys0).1))%Z = true) as ->
    by (apply Z.ltb_lt; lia).
  done.
Qed.

(** *** A run without workers *)





(** X18. What a task that is done or whose [cancel()] was called still
    does when it is resumed. It sends no request and records none; the
    counters, the cumulative latency, the last response, the start time
    and [_tasks] stay as they are, and the task is done or cancelled
    afterwards as well. A cancelled [_run_load] waiting at line 138 is the
    one that still writes: it cancels its workers, clears the running flag
    and sets the end time (lines 139-151), even when a newer run has been
    started since. Every other resumption leaves [_state] and every other
    task of the event loop untouched. *)
Theorem stopped_task_effects
    (id : nat) (i : TaskInput) (s : Sys) (tk : Task) :
  loop s !! id = Some tk ->
  stopped tk ->
  let out := task_step id i s in
  out.2 = [] /\
  stats (_state out.1) = stats (_state s) /\
  start_time (_state out.1) = start_time (_state s) /\
  _tasks out.1 = _tasks s /\
  (exists tk', loop out.1 !! id = Some tk' /\ stopped tk') /\
  match at_pc tk, i with
  | CtlGather ws, Go t151 _ _ =>
      running (_state out.1) = false /\
      end_time (_state out.1) = Some t151 /\
      forall id', id' <> id ->
        loop out.1 !! id' = cancel_all ws (loop s) !! id'
  | _, _ =>
      _state out.1 = _state s /\
      forall id', id' <> id -> loop out.1 !! id' = loop s !! id'
  end.
Proof.
  intros Hid Hst out. subst out. unfold task_step. rewrite Hid.
  assert (forall p l0 id', id' <> id -> set_pc id p l0 !! id' = l0 !! id')
    as Hother.
  { intros p l0 id' Hne. rewrite set_pc_lookup.
    by destruct (Nat.eqb_spec id' id). }
  destruct Hst as [Hd | Hc].
  { pose proof Hd as Hd'. unfold done in Hd.
    destruct (at_pc tk), i; try done;
      cbn [fst snd]; repeat split; exists tk; (split; [done | by left]). }
  rewrite Hc.
  assert (forall p l0,
            l0 !! id = Some tk \/ l0 !! id = Some (cancel tk) ->
            exists tk', set_pc id p l0 !! id = Some tk' /\ stopped tk')
    as Hupd.
  { intros p l0 Hl0. rewrite set_pc_lookup, Nat.eqb_refl.
    destruct Hl0 as [-> | ->]; cbn; eexists; (split; [done|]); right; cbn;
      [done|]. unfold cancel. by destruct (done tk). }
  destruct (at_pc tk) eqn:Hpc, i; cbn [fst snd];
    try (repeat split; exists tk; (split; [done | by right])).
  - repeat split; [apply Hupd; by left | apply Hother].
  - unfold _run_load_gather. cbn [orb fst snd _state _tasks loop].
    repeat split; [|apply Hother]. apply Hupd.
    rewrite cancel_all_lookup, Hid. destruct (existsb _ _); [by right|by left].
  - repeat split; [apply Hupd; by left | apply Hother].
  - unfold _worker_reply. cbn [is_Exception fst snd _state _tasks loop].
    repeat split; [apply Hupd; by left | apply Hother].
  - repeat split; [apply Hupd; by left | apply Hother].
Qed.

(** A run is stopped while its [_run_load] waits at line 138, and a new
    run is started before the event loop resumes it: the old [_run_load]
    then clears the running flag of the new run. *)
Lemma stopped_task_effects_witness :
  let tgt := "http://x/api/search"%string in
  let s := (exec [PostStart 1 10 tgt 0; RunTask 0 (Go 0 0 "");
                  PostStop 1; PostStart 1 10 tgt 2] sys0).1 in
  let out := task_step 0 (Go 3 3 "") s in
  (running (_state s) = true /\ running (_state out.1) = false) /\
  out.2 = [] /\
  stats (_state out.1) = stats (_state s) /\
  start_time (_state out.1) = start_time (_state s) /\
  _tasks out.1 = _tasks s /\
  (exists tk', loop out.1 !! 0%nat = Some tk' /\ stopped tk') /\
  running (_state out.1) = false /\
  end_time (_state out.1) = Some 3 /\
  forall id', id' <> 0%nat ->
    loop out.1 !! id' = cancel_all [1%nat] (loop s) !! id'.
Proof.
  intros tgt s. split; [by vm_compute|].
  apply (stopped_task_effects 0%nat (Go 3 3 "") s
           (mkTask (CtlGather [1%nat]) true));
    [reflexivity | by right].
Defined.

End ServerMore.

(** ** The form of a request *)

Section RequestForm.
Import Http.

(** *** The target of a server task *)

Lemma aimed_cancel_all (cur : option string) (ids : list nat)
    (l : list Server.Task) :
  (forall id t, l !! id = Some t -> Server.aimed cur t) ->
  forall id t, Server.cancel_all ids l !! id = Some t -> Server.aimed cur t.
Proof.
  intros Hall id t Hl.
  destruct (cancel_all_stopped _ _ _ _ Hl) as (t0 & H0 & Hpc & Hs).
  destruct (Hall id t0 H0) as [H|H].
  - left. apply Hs. by left.
  - right. by rewrite Hpc.
Qed.

Lemma aimed_update (cur : option string) (l0 : list Server.Task)
    (id : nat) (p : Server.pc) (tk : Server.Task) :
  (forall id' t, l0 !! id' = Some t -> Server.aimed cur t) ->
  l0 !! id = Some tk ->
  Server.done (Server.mkTask p false) = true \/
    Server.cancel_requested tk = true \/
    Server.pc_target_in (option_list cur) p ->
  forall id' t, Server.set_pc id p l0 !! id' = Some t -> Server.aimed cur t.
Proof.
  intros Hall Hid Hp id' t. rewrite set_pc_lookup.
  destruct (Nat.eqb_spec id' id) as [->|Hne]; [|apply Hall].
  rewrite Hid. cbn. intros [= <-].
  destruct Hp as [Hp | [Hp | Hp]];
    [by left; left | by left; right | by right].
Qed.

Lemma request_to_build (cur : option string) (tgt name : string) :
  In tgt (option_list cur) ->
  Server.request_to cur (Server.build_request tgt name).
Proof.
  destruct cur as [c|]; [|done]. intros [-> | []].
  repeat split. by exists name.
Qed.

Lemma task_step_aimed (cur : option string) (id : nat)
    (i : Server.TaskInput) (s : Server.Sys) :
  (forall id' t, Server.loop s !! id' = Some t -> Server.aimed cur t) ->
  (forall id' t, Server.loop (Server.task_step id i s).1 !! id' = Some t ->
     Server.aimed cur t) /\
  Forall (Server.request_to cur) (Server.sent (Server.task_step id i s).2).
Proof.
  intros Hall. unfold Server.task_step.
  destruct (Server.loop s !! id) as [tk|] eqn:Hid;
    [|by split; [|constructor]].
  assert (Server.done tk = true \/ Server.cancel_requested tk = true \/
          Server.pc_target_in (option_list cur) (Server.at_pc tk)) as Hlive.
  { destruct (Hall id tk Hid) as [[H|H]|H]; auto. }
  unfold Server.done in Hlive.
  destruct (Server.at_pc tk) eqn:Hpc, i;
    try (by split; [|constructor]); cbn [Server.pc_target_in] in Hlive.
  - (* _run_load, first segment *)
    destruct (Server.cancel_requested tk) eqn:Hc; cbn [fst snd].
    { split; [|constructor]. cbn [Server.loop].
      eapply aimed_update; eauto. }
    destruct Hlive as [H | [H | Hin]]; [done | done |].
    split; [|constructor]. unfold Server._run_load_start.
    destruct (concurrency <? 0)%Z; cbn [Server.loop].
    { eapply aimed_update; eauto. }
    set (n := Z.to_nat concurrency).
    set (wk := Server.mkTask
                 (Server.WkCreated target (t1 + inject_Z duration)) false).
    assert (forall id' t,
              (Server.loop s ++ replicate n wk) !! id' = Some t ->
              Server.aimed cur t) as Hall'.
    { intros id' t Hl. apply lookup_app_Some in Hl as [Hl | [Hge Hl]].
      - by apply (Hall id').
      - apply lookup_replicate in Hl as [-> _]. by right. }
    assert ((Server.loop s ++ replicate n wk) !! id = Some tk) as Hid'
      by (by apply lookup_app_l_Some).
    destruct (n =? 0)%nat; cbn [Server.loop]; eapply aimed_update; eauto.
    right. by right.
  - (* _run_load at the gather *)
    split; [|constructor]. unfold Server._run_load_gather.
    assert (exists tk', Server.cancel_all workers (Server.loop s) !! id
                        = Some tk') as [tk' Hid'].
    { rewrite cancel_all_lookup, Hid. destruct (existsb _ _); by eexists. }
    repeat case_match; cbn [fst Server.loop]; try done;
      eapply aimed_update; eauto using aimed_cancel_all.
  - (* loop_worker, created *)
    destruct (Server.cancel_requested tk) eqn:Hc; cbn [fst snd].
    { split; [|constructor]. cbn [Server.loop].
      eapply aimed_update; eauto. }
    destruct Hlive as [H | [H | Hin]]; [done | done |].
    unfold Server.loop_worker_head. case_match; cbn [fst snd Server.loop].
    + split; [eapply aimed_update; eauto; by right; right|].
      cbn [Server.sent flat_map app].
      constructor; [by apply request_to_build | constructor].
    + split; [eapply aimed_update; eauto | constructor].
  - (* _worker awaiting the response *)
    assert (Server.cancel_requested tk = true \/
            In target (option_list cur)) as Hin.
    { destruct Hlive as [H | [H | H]]; [done | by left | by right]. }
    unfold Server._worker_reply.
    repeat case_match; cbn [fst snd Server.loop];
      (split; [|constructor]); eapply aimed_update; eauto;
      destruct Hin; auto.
  - (* loop_worker after its yield *)
    destruct (Server.cancel_requested tk) eqn:Hc; cbn [fst snd].
    { split; [|constructor]. cbn [Server.loop].
      eapply aimed_update; eauto. }
    destruct Hlive as [H | [H | Hin]]; [done | done |].
    unfold Server.loop_worker_head. case_match; cbn [fst snd Server.loop].
    + split; [eapply aimed_update; eauto; by right; right|].
      cbn [Server.sent flat_map app].
      constructor; [by apply request_to_build | constructor].
    + split; [eapply aimed_update; eauto | constructor].
Qed.

Lemma step_tracked (s : Server.Sys) (i : Server.Input) :
  Server.tracked s -> Server.tracked (Server.step s i).1.
Proof.
  intros Hs. destruct i as [c d tgt t|t|t|id i]; cbn [Server.step].
  - pose proof (start_test_tracked c d tgt t s Hs).
    by destruct (Server.start_test c d tgt t s).
  - pose proof (stop_test_tracked t s Hs).
    by destruct (Server.stop_test t s).
  - done.
  - by apply task_step_tracked.
Qed.

(** An accepted /start cancels every task that can still act and creates
    [_run_load] for its own target; nothing else changes the target that
    the tasks that can still act were created for. *)
Lemma step_aimed (cur : option string) (i : Server.Input) (s : Server.Sys) :
  Server.tracked s ->
  (forall id t, Server.loop s !! id = Some t -> Server.aimed cur t) ->
  (forall id t, Server.loop (Server.step s i).1 !! id = Some t ->
     Server.aimed (Server.accepted_target s i cur) t) /\
  Forall (Server.request_to cur) (Server.sent (Server.step s i).2).
Proof.
  intros [Htr _] Hall. destruct i as [c d tgt t50|t165|t76|id i];
    cbn [Server.step Server.accepted_target].
  - unfold Server.start_test.
    destruct (Server.running (Server._state s)); cbn [fst snd];
      (split; [|constructor]); [done|].
    cbn [Server.loop]. intros id t Hl.
    apply lookup_app_Some in Hl as [Hl | [_ Hl]].
    + destruct (cancel_all_stopped _ _ _ _ Hl) as (t0 & H0 & _ & Hs).
      left. apply Hs. by apply (Htr id).
    + apply list_lookup_singleton_Some in Hl as [_ <-]. right. by left.
  - unfold Server.stop_test.
    destruct (Server.running (Server._state s)); cbn [negb fst snd];
      (split; [|constructor]); [|done].
    cbn [Server.loop]. by apply aimed_cancel_all.
  - split; [done | constructor].
  - by apply task_step_aimed.
Qed.

Lemma exec_aimed (sched : list Server.Input) (s : Server.Sys)
    (cur : option string) :
  Server.tracked s ->
  (forall id t, Server.loop s !! id = Some t -> Server.aimed cur t) ->
  let s' := (Server.exec sched s).1 in
  Server.tracked s' /\
  forall id t, Server.loop s' !! id = Some t ->
    Server.aimed (Server.current_target sched s cur) t.
Proof.
  revert s cur. induction sched as [|i sched IH]; intros s cur Htr Hall;
    [done|].
  cbn [Server.exec Server.current_target].
  pose proof (step_tracked s i Htr) as Htr1.
  pose proof (step_aimed cur i s Htr Hall) as [Hall1 _].
  specialize (IH _ _ Htr1 Hall1).
  destruct (Server.step s i) as [s1 e1]. cbn [fst] in *.
  by destruct (Server.exec sched s1) as [s2 e2].
Qed.

(** A /start that is refused does not change the target: the workers of
    the run in progress keep theirs. *)
Example refused_start_keeps_target :
  let sched := [Server.PostStart 1 10 "http://a/"%string 0;
                Server.PostStart 1 10 "http://b/"%string 1] in
  Server.current_target sched Server.sys0 None = Some "http://a/"%string.
Proof. reflexivity. Qed.

(** C9 fails as stated. The request of a server worker carries the
    name under ["q"] and nothing else: no integer parameter. *)
Lemma server_request_has_no_integer_parameter :
  let tgt := "http://x/api/search"%string in
  let sched := [Server.PostStart 1 10 tgt 0;
                Server.RunTask 0 (Server.Go 0 0 "");
                Server.RunTask 1 (Server.Go 0 0 "n")] in
  exists req,
    Server.sent (Server.exec sched Server.sys0).2 = [req] /\
    method req = GET /\ url req = tgt /\
    params req = [("q"%string, PStr "n")] /\
    forall k n, ~ In (k, PInt n) (params req).
Proof.
  eexists. repeat split. intros k n [H|[]]. discriminate H.
Qed.

(** C9, as amended. Every request is a GET with a timeout of ten
    seconds and a generated name under ["q"]. In the command-line run it
    goes to the target of the command line and also carries, under
    ["loadMore"], an integer of 1..5. In the server it carries the name
    only and goes to the target of the most recent /start that was
    accepted: whatever the process went through before, the requests that
    its next step sends all go there. *)
Theorem request_form
    (a : Cli.Args) (t36 t101 t104 : Q) (csched : list (nat * Cli.Input))
    (before : list Server.Input) (i : Server.Input) :
  Forall (Cli.request_ok (Cli.arg_target a))
         (Cli.sent (Cli.main a t36 t101 t104 csched).1.2) /\
  Forall (Server.request_to
            (Server.current_target before Server.sys0 None))
         (Server.sent
            (Server.step (Server.exec before Server.sys0).1 i).2).
Proof.
  split.
  - destruct (main_cases a t36 t101 t104 csched)
      as [(_ & _ & -> & _) | (_ & _ & -> & _)]; [constructor|].
    exact (exec_sent csched
             (Cli.run t101 t104
                (Cli.set_rps (Cli.arg_rps a)
                   (Cli.__init__ (Cli.arg_target a) (Cli.arg_concurrency a)
                      (Cli.arg_duration a) t36)))).
  - assert (Server.tracked Server.sys0) as Htr0 by (split; [done|constructor]).
    destruct (exec_aimed before Server.sys0 None Htr0) as [Htr Hall];
      [done|].
    by apply step_aimed.
Qed.

End RequestForm.
